(** * Voice-gated command controller of the SynapSense web application

    A shallow embedding of [src/components/VoiceAssistant.jsx]: the
    storage helpers, [identifyVoice], [runEnrollment],
    [performVerification] and [processCommand], followed by the
    properties of the specification that concern them.

    Modelling conventions.
    - An [async] function is a computation in the monad [M]: it threads
      the [World] (browser storage, React state, the enrollment guard and
      the trace of external interactions) and completes normally or by a
      thrown [Error].  One invocation runs from start to end; [await] is
      sequencing.
    - A function component reads React state through the closure of the
      render in which the callback was created: a callback reads the
      state as it was when it was invoked.
    - The voice backend, the recorder and the speech recogniser are an
      environment [Env] whose answers may depend on everything that
      happened before (the trace).
    - A number of a backend answer is the rational it denotes: the exact
      value of a double, or the decimal written in the JSON of the answer,
      whose double is [Number.of_Q].  The comparisons of the controller are
      taken on these rationals; the one product, [score * 100], and its
      rounding and printing are those of binary64.
    - The two stored lists hold what the program writes under them, the
      JSON of an array of strings, or a text that [JSON.parse] rejects;
      see [Stored].
    - [console.log], the rendering code and the live transcript shown
      while the recogniser runs are left out. *)

From Stdlib Require Import Bool List String Ascii NArith ZArith QArith Lia DecimalString.
From Stdlib Require Import SpecFloat.
Import ListNotations.
Close Scope Q_scope.
Open Scope string_scope.

(* ================================================================== *)
(** ** JavaScript string operations used by the controller *)
(* ================================================================== *)

(** Strings are sequences of bytes; case mapping, white space and the
    regular-expression classes [\w] and [\s] are those of ASCII. *)
Module JsString.

Definition code (c : ascii) : nat := nat_of_ascii c.

Definition between (lo hi : nat) (c : ascii) : bool :=
  (lo <=? code c)%nat && (code c <=? hi)%nat.

Definition is_upper : ascii -> bool := between 65 90.
Definition is_lower : ascii -> bool := between 97 122.
Definition is_digit : ascii -> bool := between 48 57.

(** [\w] *)
Definition is_word_char (c : ascii) : bool :=
  is_upper c || is_lower c || is_digit c || (code c =? 95)%nat.

(** [\s], also the characters removed by [trim] *)
Definition is_space (c : ascii) : bool :=
  (code c =? 32)%nat || between 9 13 c.

Definition lower_char (c : ascii) : ascii :=
  if is_upper c then ascii_of_nat (code c + 32) else c.

Definition upper_char (c : ascii) : ascii :=
  if is_lower c then ascii_of_nat (code c - 32) else c.

Fixpoint map_chars (f : ascii -> ascii) (s : string) : string :=
  match s with
  | EmptyString => EmptyString
  | String c r => String (f c) (map_chars f r)
  end.

Definition toLowerCase : string -> string := map_chars lower_char.
Definition toUpperCase : string -> string := map_chars upper_char.

Fixpoint drop_while (p : ascii -> bool) (s : string) : string :=
  match s with
  | EmptyString => EmptyString
  | String c r => if p c then drop_while p r else s
  end.

Fixpoint take_while (p : ascii -> bool) (s : string) : string :=
  match s with
  | EmptyString => EmptyString
  | String c r => if p c then String c (take_while p r) else EmptyString
  end.

Definition reverse (s : string) : string :=
  string_of_list_ascii (rev (list_ascii_of_string s)).

Definition trimStart : string -> string := drop_while is_space.
Definition trimEnd (s : string) : string := reverse (trimStart (reverse s)).
Definition trim (s : string) : string := trimEnd (trimStart s).

(** [strip_prefix p s] is [Some r] when [s = p ++ r]. *)
Fixpoint strip_prefix (p s : string) : option string :=
  match p, s with
  | EmptyString, _ => Some s
  | String a p', String b s' =>
      if Ascii.eqb a b then strip_prefix p' s' else None
  | String _ _, EmptyString => None
  end.

Definition startsWith (s p : string) : bool :=
  match strip_prefix p s with Some _ => true | None => false end.

(** [s.includes(sub)] *)
Fixpoint includes (s sub : string) : bool :=
  startsWith s sub ||
  match s with
  | EmptyString => false
  | String _ r => includes r sub
  end.

(** [words.includes(w)] on an array of strings *)
Definition array_includes (l : list string) (w : string) : bool :=
  existsb (String.eqb w) l.

(** A word boundary [\b] after a word character: the rest is empty or
    begins with a character that is not a word character. *)
Definition boundary_after_word (rest : string) : bool :=
  match rest with
  | EmptyString => true
  | String c _ => negb (is_word_char c)
  end.

Definition word_here (s w : string) : bool :=
  match strip_prefix w s with
  | Some rest => boundary_after_word rest
  | None => false
  end.

(** [/\b(w1|...|wn)\b/.test(s)], for alternatives that are non-empty
    runs of word characters: some alternative occurs in [s] with no
    word character directly before or after it.  [prev] tells whether
    the character before the current position is a word character. *)
Fixpoint test_words_from (alts : list string) (prev : bool) (s : string) : bool :=
  (negb prev && existsb (word_here s) alts) ||
  match s with
  | EmptyString => false
  | String c r => test_words_from alts (is_word_char c) r
  end.

Definition test_words (alts : list string) (s : string) : bool :=
  test_words_from alts false s.

(** The capture group of [/enroll\s+(\w+)/] when the match starts at
    the beginning of [s]. *)
Definition enroll_name_here (s : string) : option string :=
  match strip_prefix "enroll" s with
  | Some rest =>
      match rest with
      | String c _ =>
          if is_space c then
            match take_while is_word_char (drop_while is_space rest) with
            | EmptyString => None
            | name => Some name
            end
          else None
      | EmptyString => None
      end
  | None => None
  end.

(** [s.match(/enroll\s+(\w+)/i)] on a lower-case [s]: the capture group
    of the leftmost match, [None] when there is no match. *)
Fixpoint match_enroll_name (s : string) : option string :=
  match enroll_name_here s with
  | Some name => Some name
  | None =>
      match s with
      | EmptyString => None
      | String _ r => match_enroll_name r
      end
  end.

(** Decimal text of an integer, as in a template literal. *)
Definition of_Z (z : Z) : string := NilZero.string_of_int (Z.to_int z).

Definition dquote : string := String "034"%char EmptyString.
Definition newline : string := String "010"%char EmptyString.

(** [!!s], [!s]: the empty string is the only falsy string. *)
Definition truthy (s : string) : bool :=
  match s with EmptyString => false | _ => true end.

End JsString.

(* ================================================================== *)
(** ** Data *)
(* ================================================================== *)

(** An audio sample: its bytes; [size] is the byte length. *)
Definition Blob : Type := list Byte.byte.
Definition size (b : Blob) : N := N.of_nat (List.length b).

(** A JavaScript [Error]. *)
Record Error : Type := mkError { message : string }.

(** How a call completes. *)
Inductive Completion (A : Type) : Type :=
| Normal (a : A)
| Thrown (e : Error).
Arguments Normal {A} a.
Arguments Thrown {A} e.

(** Response of [authenticateVoice]. *)
Module Auth.
Record t : Type := mk
  { authenticated : bool; confidence : Q; decision : string }.
End Auth.

(** Response of [enrollUser]. *)
Module Enroll.
Record t : Type := mk { success : bool; message : string }.
End Enroll.

(** Response of [startChallenge]. *)
Module Challenge.
Record t : Type := mk
  { success : bool; message : string; phrase : string; sessionId : string }.
End Challenge.

(** Response of [verifyChallengeWithText]. *)
Module Verify.
Record t : Type := mk
  { success : bool; speakerMatch : bool; phraseMatch : bool }.
End Verify.

(** The running best match of [identifyVoice]. *)
Module Best.
Record t : Type := mk
  { user : option string; score : Q; authenticated : bool; decision : string }.
End Best.

(** The object returned by [identifyVoice]; an absent property is [None]. *)
Module Ident.
Record t : Type := mk
  { identified : bool; user : option string; score : Q;
    decision : option string; error : option string }.
End Ident.

(** The action kept by the PIN dialog until the PIN is accepted, for the
    dialogs that [startEnrollment] opens: [() => runEnrollment(ownerName)]. *)
Inductive Action : Type :=
| ActRunEnrollment (ownerName : string).

(** The function handed to [setTimeout]. *)
Inductive Callback : Type :=
| CbIdle                                (* () => updateStatus("idle", "") *)
| CbIdleUnlessVerified (status : string)
    (* () => { if (status !== "verified") updateStatus("idle", "") },
       [status] being the value in the closure *)
| CbPending (a : Action).               (* pendingAction *)

(** External interactions, newest first in the trace. *)
Inductive Event : Type :=
| EvSpeak (text : string)
| EvNavigate (route : string)
| EvSetTimeout (cb : Callback) (ms : N)
| EvSleep (ms : N)
| EvRecordAudio (ms : N) (res : Completion (option Blob))
| EvRecognition (heard : string)
| EvAuthenticate (userId : string) (audio : Blob) (res : Completion Auth.t)
| EvEnroll (userId : string) (samples : list (option Blob)) (flag : bool)
    (res : Completion Enroll.t)
| EvStartChallenge (userId : string) (res : Completion Challenge.t)
| EvVerifyChallenge (sessionId : string) (audio : Blob) (spokenText : string)
    (res : Completion Verify.t).

(** The collaborators of the controller.  Each answer is a function of
    the trace so far and of the arguments of the call. *)
Module Env.
Record t : Type := mk
  { recordAudio : list Event -> N -> Completion (option Blob);
    authenticateVoice : list Event -> string -> Blob -> Completion Auth.t;
    enrollUser :
      list Event -> string -> list (option Blob) -> bool -> Completion Enroll.t;
    startChallenge : list Event -> string -> Completion Challenge.t;
    verifyChallengeWithText :
      list Event -> string -> Blob -> string -> Completion Verify.t;
    (* is [window.SpeechRecognition] available *)
    SpeechRecognition : bool;
    (* the last final transcript of one recognition, empty when none *)
    recognize : list Event -> string }.
End Env.

(** The text kept under a [localStorage] key that is read with
    [JSON.parse]: the JSON of an array of strings, which is all that the
    program writes there with [JSON.stringify], or a non-empty text that
    [JSON.parse] rejects with the given [SyntaxError].  A text put there
    by other means that [JSON.parse] accepts with another value ([null],
    a number, an object, an array of other things) has no counterpart
    here, and the properties below do not speak of it. *)
Inductive Stored : Type :=
| JsonArray (l : list string)
| NotJson (syntaxError : Error).

Record LocalStorage : Type := mkStorage
  { synap_owner_password : option string;
    synap_owners : option Stored;
    synap_enrolled_owners : option Stored }.

(** React state of the component, grouped. *)
Record Session : Type := mkSession
  { status : string;
    statusMessage : string;
    isVerified : bool;
    currentUser : option string }.

Record Profiles : Type := mkProfiles
  { voiceAuthStatus : string;
    isEnrolled : bool;
    enrolledOwners : list string;
    owners : list string }.

Record EnrollmentRun : Type := mkRun
  { isEnrolling : bool;
    enrollmentStep : nat;
    currentEnrollPhrase : string }.

Record PinModal : Type := mkPin
  { showPinModal : bool;
    pinModalMode : string;
    pinValue : string;
    pinConfirmValue : string;
    pinError : string;
    pendingAction : option Action }.

Record World : Type := mkWorld
  { storage : LocalStorage;
    session : Session;
    profiles : Profiles;
    run : EnrollmentRun;
    pin : PinModal;
    enrollmentInProgressRef : bool;
    trace : list Event }.

(* ================================================================== *)
(** ** The monad of the controller *)
(* ================================================================== *)

Definition M (A : Type) : Type := World -> Completion A * World.

Definition ret {A : Type} (a : A) : M A := fun w => (Normal a, w).

Definition bind {A B : Type} (m : M A) (k : A -> M B) : M B :=
  fun w =>
    match m w with
    | (Normal a, w') => k a w'
    | (Thrown e, w') => (Thrown e, w')
    end.

Definition throw {A : Type} (e : Error) : M A := fun w => (Thrown e, w).

(** [try { body } catch (error) { handler }] *)
Definition try_catch {A : Type} (body : M A) (handler : Error -> M A) : M A :=
  fun w =>
    match body w with
    | (Normal a, w') => (Normal a, w')
    | (Thrown e, w') => handler e w'
    end.

Definition read {A : Type} (f : World -> A) : M A := fun w => (Normal (f w), w).
Definition modify (f : World -> World) : M unit := fun w => (Normal tt, f w).

Declare Scope js_scope.
Delimit Scope js_scope with js.
Notation "x <- m ;; k" := (bind m (fun x => k))
  (at level 100, m at next level, right associativity) : js_scope.
Notation "m ;; k" := (bind m (fun _ => k))
  (at level 100, right associativity) : js_scope.
Open Scope js_scope.

(** The world after a computation, and how it completed. *)
Definition exec {A : Type} (m : M A) (w : World) : World := snd (m w).
Definition completion {A : Type} (m : M A) (w : World) : Completion A := fst (m w).

(* ------------------------------------------------------------------ *)
(** *** Updates of the parts of the world *)

Definition with_storage (f : LocalStorage -> LocalStorage) (w : World) : World :=
  mkWorld (f (storage w)) (session w) (profiles w) (run w) (pin w)
    (enrollmentInProgressRef w) (trace w).

Definition with_session (f : Session -> Session) (w : World) : World :=
  mkWorld (storage w) (f (session w)) (profiles w) (run w) (pin w)
    (enrollmentInProgressRef w) (trace w).

Definition with_profiles (f : Profiles -> Profiles) (w : World) : World :=
  mkWorld (storage w) (session w) (f (profiles w)) (run w) (pin w)
    (enrollmentInProgressRef w) (trace w).

Definition with_run (f : EnrollmentRun -> EnrollmentRun) (w : World) : World :=
  mkWorld (storage w) (session w) (profiles w) (f (run w)) (pin w)
    (enrollmentInProgressRef w) (trace w).

Definition with_pin (f : PinModal -> PinModal) (w : World) : World :=
  mkWorld (storage w) (session w) (profiles w) (run w) (f (pin w))
    (enrollmentInProgressRef w) (trace w).

Definition with_guard (b : bool) (w : World) : World :=
  mkWorld (storage w) (session w) (profiles w) (run w) (pin w) b (trace w).

Definition log (e : Event) (w : World) : World :=
  mkWorld (storage w) (session w) (profiles w) (run w) (pin w)
    (enrollmentInProgressRef w) (e :: trace w).

(* ------------------------------------------------------------------ *)
(** *** React state setters *)

Definition setStatus (s : string) : M unit :=
  modify (with_session (fun x =>
    mkSession s (statusMessage x) (isVerified x) (currentUser x))).

Definition setStatusMessage (msg : string) : M unit :=
  modify (with_session (fun x =>
    mkSession (status x) msg (isVerified x) (currentUser x))).

Definition setIsVerified (b : bool) : M unit :=
  modify (with_session (fun x =>
    mkSession (status x) (statusMessage x) b (currentUser x))).

Definition setCurrentUser (u : option string) : M unit :=
  modify (with_session (fun x =>
    mkSession (status x) (statusMessage x) (isVerified x) u)).

Definition setIsEnrolled (b : bool) : M unit :=
  modify (with_profiles (fun x =>
    mkProfiles (voiceAuthStatus x) b (enrolledOwners x) (owners x))).

Definition setEnrolledOwnersState (l : list string) : M unit :=
  modify (with_profiles (fun x =>
    mkProfiles (voiceAuthStatus x) (isEnrolled x) l (owners x))).

Definition setOwnersState (l : list string) : M unit :=
  modify (with_profiles (fun x =>
    mkProfiles (voiceAuthStatus x) (isEnrolled x) (enrolledOwners x) l)).

Definition setIsEnrolling (b : bool) : M unit :=
  modify (with_run (fun x => mkRun b (enrollmentStep x) (currentEnrollPhrase x))).

Definition setEnrollmentStep (n : nat) : M unit :=
  modify (with_run (fun x => mkRun (isEnrolling x) n (currentEnrollPhrase x))).

Definition setCurrentEnrollPhrase (p : string) : M unit :=
  modify (with_run (fun x => mkRun (isEnrolling x) (enrollmentStep x) p)).

Definition setShowPinModal (b : bool) : M unit :=
  modify (with_pin (fun x =>
    mkPin b (pinModalMode x) (pinValue x) (pinConfirmValue x) (pinError x)
      (pendingAction x))).

Definition setPinModalMode (m : string) : M unit :=
  modify (with_pin (fun x =>
    mkPin (showPinModal x) m (pinValue x) (pinConfirmValue x) (pinError x)
      (pendingAction x))).

Definition setPinValue (v : string) : M unit :=
  modify (with_pin (fun x =>
    mkPin (showPinModal x) (pinModalMode x) v (pinConfirmValue x) (pinError x)
      (pendingAction x))).

Definition setPinConfirmValue (v : string) : M unit :=
  modify (with_pin (fun x =>
    mkPin (showPinModal x) (pinModalMode x) (pinValue x) v (pinError x)
      (pendingAction x))).

Definition setPinError (e : string) : M unit :=
  modify (with_pin (fun x =>
    mkPin (showPinModal x) (pinModalMode x) (pinValue x) (pinConfirmValue x) e
      (pendingAction x))).

Definition setPendingAction (a : option Action) : M unit :=
  modify (with_pin (fun x =>
    mkPin (showPinModal x) (pinModalMode x) (pinValue x) (pinConfirmValue x)
      (pinError x) a)).

(** [enrollmentInProgressRef.current = b] *)
Definition setEnrollmentInProgress (b : bool) : M unit := modify (with_guard b).

(** [const updateStatus = (s, msg = "") => { setStatus(s); setStatusMessage(msg); }] *)
Definition updateStatus (s msg : string) : M unit :=
  setStatus s ;; setStatusMessage msg.

(* ------------------------------------------------------------------ *)
(** *** Storage helpers *)

Definition getOwnerPassword : M (option string) :=
  read (fun w => synap_owner_password (storage w)).

Definition setOwnerPassword (p : string) : M unit :=
  modify (with_storage (fun s =>
    mkStorage (Some p) (synap_owners s) (synap_enrolled_owners s))).

(** [!!getOwnerPassword()] *)
Definition hasOwnerPassword : M bool :=
  p <- getOwnerPassword ;;
  ret (match p with Some s => JsString.truthy s | None => false end).

(** [getOwnerPassword() === input] *)
Definition verifyOwnerPassword (input : string) : M bool :=
  p <- getOwnerPassword ;;
  ret (match p with Some s => String.eqb s input | None => false end).

(** [JSON.parse(localStorage.getItem(key) || fallback)] *)
Definition parse_item (item : option Stored) (fallback : list string) : M (list string) :=
  match item with
  | None => ret fallback
  | Some (JsonArray l) => ret l
  | Some (NotJson e) => throw e
  end.

Definition getOwners : M (list string) :=
  item <- read (fun w => synap_owners (storage w)) ;;
  parse_item item ["owner"].

Definition getEnrolledOwners : M (list string) :=
  item <- read (fun w => synap_enrolled_owners (storage w)) ;;
  parse_item item [].

Definition setOwners (l : list string) : M unit :=
  modify (with_storage (fun s =>
    mkStorage (synap_owner_password s) (Some (JsonArray l)) (synap_enrolled_owners s))).

Definition setEnrolledOwners (l : list string) : M unit :=
  modify (with_storage (fun s =>
    mkStorage (synap_owner_password s) (synap_owners s) (Some (JsonArray l)))).

Definition markOwnerEnrolled (name : string) : M unit :=
  enrolled <- getEnrolledOwners ;;
  if negb (JsString.array_includes enrolled name)
  then setEnrolledOwners (enrolled ++ [name])
  else ret tt.

Definition addOwner (name : string) : M unit :=
  owners <- getOwners ;;
  if negb (JsString.array_includes owners name)
  then setOwners (owners ++ [name])
  else ret tt.

Definition removeOwner (name : string) : M bool :=
  if String.eqb name "owner" then ret false
  else
    owners <- getOwners ;;
    setOwners (filter (fun o => negb (String.eqb o name)) owners) ;;
    enrolled <- getEnrolledOwners ;;
    setEnrolledOwners (filter (fun o => negb (String.eqb o name)) enrolled) ;;
    ret true.

(** [localStorage.removeItem] of the three keys *)
Definition removeItem_password : M unit :=
  modify (with_storage (fun s =>
    mkStorage None (synap_owners s) (synap_enrolled_owners s))).
Definition removeItem_enrolled_owners : M unit :=
  modify (with_storage (fun s =>
    mkStorage (synap_owner_password s) (synap_owners s) None)).
Definition removeItem_owners : M unit :=
  modify (with_storage (fun s =>
    mkStorage (synap_owner_password s) None (synap_enrolled_owners s))).

Definition ENROLLMENT_PHRASES : list string :=
  [ "My voice is my password"; "SynapSense keeps me safe"; "Home sweet home" ].

(** [const getUserId = (ownerName = "owner") => `voice_${ownerName}`] *)
Definition getUserId (ownerName : string) : string := "voice_" ++ ownerName.

(** [a > b] on numbers *)
Definition Qgtb (a b : Q) : bool := negb (Qle_bool a b).

(** Numbers are binary64 values; [Number] has what the controller does
    with them beyond comparing: the product and the decimal text of an
    integral value in a template literal. *)
Module Number.

Definition prec : Z := 53.
Definition emax : Z := 1024.

(** The double of the rational [q]: [q] itself when it is one, otherwise
    the nearest, ties to the even significand. *)
Definition of_Q (q : Q) : spec_float :=
  match Qnum q with
  | Z0 => S754_zero false
  | Zpos n =>
      SFdiv prec emax (S754_finite false n 0) (S754_finite false (Qden q) 0)
  | Zneg n =>
      SFdiv prec emax (S754_finite true n 0) (S754_finite false (Qden q) 0)
  end.

(** [x * y] *)
Definition mul (x y : spec_float) : spec_float := SFmul prec emax x y.

(** What [Math.round] returns: an integer, the two zeros taken as one,
    an infinity or [NaN]. *)
Inductive integral : Type :=
| Int (z : Z)
| Infinity (negative : bool)
| NaN.

(** Whether the decimal [v] is read back as the double [z], for [z] at
    least [2 ^ 53]: [v] lies within half the distance to the neighbours
    of [z], the ends included when the significand of [z] is even. *)
Definition rounds_to (z v : Z) : bool :=
  let e := (Z.log2 z - 52)%Z in
  let m := (z / 2 ^ e)%Z in
  let above := (2 ^ e)%Z in
  let below := if (m =? 2 ^ 52)%Z then (2 ^ (e - 1))%Z else (2 ^ e)%Z in
  if (v <? z)%Z
  then (2 * (z - v) <? below)%Z || ((2 * (z - v) =? below)%Z && Z.even m)
  else (2 * (v - z) <? above)%Z || ((2 * (v - z) =? above)%Z && Z.even m).

(** The decimal with the fewest significant digits that is read back as
    [z], the closest to [z] among those; [n] is the number of digits of
    [z] and [k] the number of significant digits tried. *)
Fixpoint shortest_from (fuel : nat) (z n k : Z) : Z :=
  match fuel with
  | O => z
  | S fuel' =>
      let unit := (10 ^ (n - k))%Z in
      let s := (z / unit)%Z in
      let lower := (s * unit)%Z in
      let upper := ((s + 1) * unit)%Z in
      match rounds_to z lower, rounds_to z upper with
      | true, true =>
          if (z - lower <? upper - z)%Z then lower
          else if (upper - z <? z - lower)%Z then upper
          else if Z.even s then lower else upper
      | true, false => lower
      | false, true => upper
      | false, false => shortest_from fuel' z n (k + 1)%Z
      end
  end.

Definition shortest (z : Z) : Z :=
  let n := Z.of_nat (String.length (JsString.of_Z z)) in
  shortest_from (Z.to_nat n) z n 1.

Fixpoint strip_zeros (digits : list ascii) : list ascii :=
  match digits with
  | [] => []
  | c :: rest =>
      match strip_zeros rest with
      | [] => if Ascii.eqb c "0" then [] else [c]
      | rest' => c :: rest'
      end
  end.

(** [d.ddde+n], for a value of more than 21 digits *)
Definition exponent_notation (v : Z) : string :=
  let text := JsString.of_Z v in
  let n := Z.of_nat (String.length text) in
  match strip_zeros (list_ascii_of_string text) with
  | [] => text
  | [d] => String d ("e+" ++ JsString.of_Z (n - 1))
  | d :: more =>
      String d ("." ++ string_of_list_ascii more ++ "e+" ++ JsString.of_Z (n - 1))
  end.

(** Text of a double with the integral value [z], [0 <= z]: below
    [2 ^ 53] every digit counts; above, the digits are those of
    [shortest]. *)
Definition natural_to_string (z : Z) : string :=
  if (z <? 2 ^ 53)%Z then JsString.of_Z z
  else
    let v := shortest z in
    if (Z.of_nat (String.length (JsString.of_Z v)) <=? 21)%Z
    then JsString.of_Z v
    else exponent_notation v.

(** [`${x}`] for a result of [Math.round] *)
Definition to_string (x : integral) : string :=
  match x with
  | Int z =>
      if (z <? 0)%Z then "-" ++ natural_to_string (- z) else natural_to_string z
  | Infinity false => "Infinity"
  | Infinity true => "-Infinity"
  | NaN => "NaN"
  end.

End Number.

(** [Math.round(x)]: the integer nearest to the value of the double [x],
    a half going up *)
Definition Math_round (x : spec_float) : Number.integral :=
  match x with
  | S754_zero _ => Number.Int 0
  | S754_infinity s => Number.Infinity s
  | S754_nan => Number.NaN
  | S754_finite s m e =>
      let n := if s then Zneg m else Zpos m in
      match e with
      | Zneg p => Number.Int ((2 * n + 2 ^ Zpos p) / 2 ^ (Zpos p + 1))%Z
      | _ => Number.Int (n * 2 ^ e)%Z
      end
  end.

(** An entry of the table [NAV]; [p] lists the alternatives of the
    pattern [/\b(...)\b/]. *)
Module Nav.
Record t : Type := mk { p : list string; r : string; n : string }.
End Nav.

Definition NAV : list Nav.t :=
  [ Nav.mk ["home"; "dashboard"; "main"; "start"] "/" "Dashboard";
    Nav.mk ["vibration"; "sensor"; "signal"; "piezo"] "/vibrations" "Vibrations";
    Nav.mk ["notification"; "alert"; "message"] "/notifications" "Notifications";
    Nav.mk ["profile"; "account"] "/profile" "Profile";
    Nav.mk ["setting"; "config"; "option"] "/settings" "Settings" ].

(* ================================================================== *)
(** ** The controller *)
(* ================================================================== *)

Section Controller.

Variable env : Env.t.

(* ------------------------------------------------------------------ *)
(** *** Calls to the collaborators *)

Definition emit (e : Event) : M unit := modify (log e).

(** A call whose answer comes from the environment; the call and its
    answer are appended to the trace. *)
Definition ask {A : Type} (answer : list Event -> Completion A)
    (ev : Completion A -> Event) : M A :=
  fun w => let r := answer (trace w) in (r, log (ev r) w).

Definition speak (text : string) : M unit := emit (EvSpeak text).
Definition navigate (route : string) : M unit := emit (EvNavigate route).
Definition setTimeout (cb : Callback) (ms : N) : M unit := emit (EvSetTimeout cb ms).

(** [await new Promise(r => setTimeout(r, ms))] *)
Definition sleep (ms : N) : M unit := emit (EvSleep ms).

Definition recordAudio (ms : N) : M (option Blob) :=
  ask (fun h => Env.recordAudio env h ms) (EvRecordAudio ms).

Definition authenticateVoice (userId : string) (audio : Blob) : M Auth.t :=
  ask (fun h => Env.authenticateVoice env h userId audio) (EvAuthenticate userId audio).

Definition enrollUser (userId : string) (samples : list (option Blob)) (flag : bool)
  : M Enroll.t :=
  ask (fun h => Env.enrollUser env h userId samples flag) (EvEnroll userId samples flag).

Definition startChallenge (userId : string) : M Challenge.t :=
  ask (fun h => Env.startChallenge env h userId) (EvStartChallenge userId).

Definition verifyChallengeWithText (sessionId : string) (audio : Blob)
    (spokenText : string) : M Verify.t :=
  ask (fun h => Env.verifyChallengeWithText env h sessionId audio spokenText)
    (EvVerifyChallenge sessionId audio spokenText).

(** One run of the speech recogniser: the last final transcript. *)
Definition recognition : M string :=
  fun w => let heard := Env.recognize env (trace w) in
           (Normal heard, log (EvRecognition heard) w).

(* ------------------------------------------------------------------ *)
(** *** [identifyVoice] *)

(** The body of the loop after the [NOT_ENROLLED] test: the update of
    [bestMatch] by the result for [owner]. *)
Definition consider (owner : string) (result : Auth.t) (bestMatch : Best.t) : Best.t :=
  if Auth.authenticated result
     && Qgtb (Auth.confidence result) (Best.score bestMatch)
  then Best.mk (Some owner) (Auth.confidence result) true (Auth.decision result)
  else if negb (Best.authenticated bestMatch)
          && Qgtb (Auth.confidence result) (Best.score bestMatch)
  then Best.mk (Some owner) (Auth.confidence result) false (Auth.decision result)
  else bestMatch.

(** [for (const owner of enrolled) { try { ... } catch (e) { ... } }] *)
Fixpoint scan (audioBlob : Blob) (enrolled : list string) (bestMatch : Best.t)
  : M Best.t :=
  match enrolled with
  | [] => ret bestMatch
  | owner :: rest =>
      next <- try_catch
                (result <- authenticateVoice (getUserId owner) audioBlob ;;
                 if String.eqb (Auth.decision result) "NOT_ENROLLED"
                 then ret bestMatch
                 else ret (consider owner result bestMatch))
                (fun _ => ret bestMatch) ;;
      scan audioBlob rest next
  end.

Definition no_audio : Ident.t :=
  Ident.mk false None 0 None (Some "No audio").

Definition identifyVoice (audioBlob : option Blob) : M Ident.t :=
  enrolled <- getEnrolledOwners ;;
  if (List.length enrolled =? 0)%nat
  then ret (Ident.mk true None 1 None None)
  else
    match audioBlob with
    | None => ret no_audio
    | Some blob =>
        if (size blob <? 1000)%N then ret no_audio
        else
          bestMatch <- scan blob enrolled (Best.mk None 0 false "") ;;
          ret (Ident.mk (Best.authenticated bestMatch) (Best.user bestMatch)
                 (Best.score bestMatch) (Some (Best.decision bestMatch)) None)
    end.

(* ------------------------------------------------------------------ *)
(** *** [runEnrollment] *)

(** The loop over [ENROLLMENT_PHRASES] from index [step] on; [None] is
    the [return] in the [catch] of a failed recording. *)
Fixpoint capture_phrases (phrases : list string) (step : nat)
    (samples : list (option Blob)) : M (option (list (option Blob))) :=
  match phrases with
  | [] => ret (Some samples)
  | phrase :: rest =>
      setCurrentEnrollPhrase phrase ;;
      setEnrollmentStep (step + 1) ;;
      updateStatus "enrolling"
        ("SAY: " ++ JsString.dquote ++ phrase ++ JsString.dquote) ;;
      speak phrase ;;
      sleep 3500 ;;
      updateStatus "recording" "RECORDING..." ;;
      captured <- try_catch
        (audioBlob <- recordAudio 4000 ;;
         updateStatus "processing"
           ("SAMPLE " ++ JsString.of_Z (Z.of_nat (step + 1)) ++ "/3 ✓") ;;
         sleep 1000 ;;
         ret (Some (samples ++ [audioBlob])%list))
        (fun error =>
           updateStatus "error" (message error) ;;
           setIsEnrolling false ;;
           setEnrollmentInProgress false ;;
           ret None) ;;
      match captured with
      | Some samples' => capture_phrases rest (step + 1) samples'
      | None => ret None
      end
  end.

Definition runEnrollment (ownerName : string) : M unit :=
  busy <- read enrollmentInProgressRef ;;
  if busy then ret tt
  else
    setEnrollmentInProgress true ;;
    setIsEnrolling true ;;
    setEnrollmentStep 0 ;;
    updateStatus "enrolling" ("INITIALIZING " ++ JsString.toUpperCase ownerName) ;;
    speak "Voice enrollment started. Repeat each phrase after me." ;;
    sleep 3500 ;;
    captured <- capture_phrases ENROLLMENT_PHRASES 0 [] ;;
    match captured with
    | None => ret tt
    | Some samples =>
        setCurrentEnrollPhrase "" ;;
        updateStatus "processing" "CREATING VOICEPRINT..." ;;
        try_catch
          (result <- enrollUser (getUserId ownerName) samples true ;;
           if Enroll.success result then
             markOwnerEnrolled ownerName ;;
             enrolled <- getEnrolledOwners ;;
             setEnrolledOwnersState enrolled ;;
             setIsEnrolled true ;;
             updateStatus "success" "VOICEPRINT CREATED" ;;
             speak "Voiceprint created successfully."
           else updateStatus "error" (Enroll.message result))
          (fun error => updateStatus "error" (message error)) ;;
        setTimeout CbIdle 3000 ;;
        setIsEnrolling false ;;
        setEnrollmentInProgress false
    end.

(* ------------------------------------------------------------------ *)
(** *** The PIN dialog and [startEnrollment] *)

Definition openPinModal (mode : string) (action : option Action) : M unit :=
  setPinModalMode mode ;;
  setPinValue "" ;;
  setPinConfirmValue "" ;;
  setPinError "" ;;
  setPendingAction action ;;
  setShowPinModal true.

Definition startEnrollment (ownerName : string) : M unit :=
  ready <- read (fun w => String.eqb (voiceAuthStatus (profiles w)) "ready") ;;
  if negb ready then updateStatus "error" "OFFLINE"
  else
    hasPin <- hasOwnerPassword ;;
    if negb hasPin
    then openPinModal "setup" (Some (ActRunEnrollment ownerName))
    else openPinModal "verify" (Some (ActRunEnrollment ownerName)).

(** [/^\d{4}$/.test(v)] *)
Definition four_digits (v : string) : bool :=
  (String.length v =? 4)%nat
  && forallb JsString.is_digit (list_ascii_of_string v).

Definition handlePinSubmit : M unit :=
  p <- read pin ;;
  if negb (String.length (pinValue p) =? 4)%nat || negb (four_digits (pinValue p))
  then setPinError "4 digits required"
  else
    accepted <-
      (if String.eqb (pinModalMode p) "setup" then
         if negb (String.eqb (pinConfirmValue p) (pinValue p))
         then setPinError "PIN mismatch" ;; ret false
         else setOwnerPassword (pinValue p) ;; ret true
       else
         ok <- verifyOwnerPassword (pinValue p) ;;
         if negb ok then setPinError "Invalid PIN" ;; ret false
         else ret true) ;;
    if accepted : bool then
      setShowPinModal false ;;
      match pendingAction p with
      | Some a => setTimeout (CbPending a) 200
      | None => ret tt
      end
    else ret tt.

(* ------------------------------------------------------------------ *)
(** *** [performVerification] *)

(** [enrolledOwners[0] || "owner"] *)
Definition first_or_owner (enrolledOwners : list string) : string :=
  match enrolledOwners with
  | first :: _ => if JsString.truthy first then first else "owner"
  | [] => "owner"
  end.

(** The recording of the response, with the recogniser when there is
    one: the audio and the text heard. *)
Definition capture_response : M (option Blob * string) :=
  if Env.SpeechRecognition env then
    audioBlob <- recordAudio 5000 ;;
    heard <- recognition ;;
    sleep 500 ;;
    ret (audioBlob, heard)
  else
    audioBlob <- recordAudio 5000 ;;
    ret (audioBlob, "").

Definition mark (ok : bool) : string := if ok then "✓" else "✗".

(** [`VOICE: ${voiceOk ? "✓" : "✗"}\nPHRASE: ${phraseOk ? "✓" : "✗"}`] *)
Definition denied_message (voiceOk phraseOk : bool) : string :=
  "VOICE: " ++ mark voiceOk ++ JsString.newline ++ "PHRASE: " ++ mark phraseOk.

(** The [try] block; [false] is the [return] taken when no audio was
    recorded, which leaves the function before its final [setTimeout]. *)
Definition verification_attempt (userId : string) (enrolledOwners : list string)
  : M bool :=
  challenge <- startChallenge userId ;;
  if negb (Challenge.success challenge)
  then throw (mkError (Challenge.message challenge))
  else
    updateStatus "challenge"
      ("SAY: " ++ JsString.dquote ++ Challenge.phrase challenge ++ JsString.dquote) ;;
    speak (Challenge.phrase challenge) ;;
    sleep 3000 ;;
    updateStatus "listening" "🎤 SPEAK NOW" ;;
    captured <- capture_response ;;
    let (audioBlob, heard) := captured : option Blob * string in
    updateStatus "processing" "ANALYZING..." ;;
    let spokenText :=
      if JsString.truthy heard then heard else Challenge.phrase challenge in
    match audioBlob with
    | Some blob =>
        if (size blob <? 1000)%N then
          updateStatus "error" "NO AUDIO DETECTED" ;;
          speak "No audio detected. Please try again." ;;
          ret false
        else
          result <- verifyChallengeWithText (Challenge.sessionId challenge)
                      blob spokenText ;;
          (if Verify.success result && Verify.speakerMatch result
              && Verify.phraseMatch result
           then
             setIsVerified true ;;
             setCurrentUser (Some (first_or_owner enrolledOwners)) ;;
             updateStatus "verified" "✓ AUTHENTICATED" ;;
             speak "Identity verified. You can now use voice commands."
           else
             updateStatus "denied"
               (denied_message (Verify.speakerMatch result)
                  (Verify.phraseMatch result)) ;;
             speak "Authentication failed. Please try again.") ;;
          ret true
    | None =>
        updateStatus "error" "NO AUDIO DETECTED" ;;
        speak "No audio detected. Please try again." ;;
        ret false
    end.

(** [isEnrolled], [enrolledOwners] and [status] are the values in the
    closure of the callback: the state when it is invoked. *)
Definition performVerification : M unit :=
  isEnrolled <- read (fun w => isEnrolled (profiles w)) ;;
  enrolledOwners <- read (fun w => enrolledOwners (profiles w)) ;;
  status <- read (fun w => status (session w)) ;;
  if negb isEnrolled then
    updateStatus "error" "NO VOICEPRINT" ;;
    speak "Please create a voiceprint first"
  else
    let userId := getUserId (first_or_owner enrolledOwners) in
    updateStatus "verifying" "STARTING..." ;;
    completed <- try_catch
      (verification_attempt userId enrolledOwners)
      (fun error => updateStatus "error" (message error) ;; ret true) ;;
    if completed : bool
    then setTimeout (CbIdleUnlessVerified status) 3000
    else ret tt.

(* ------------------------------------------------------------------ *)
(** *** [processCommand] *)

(** A call that is not awaited: the caller goes on whatever the outcome. *)
Definition detached (m : M unit) : M unit :=
  fun w => (Normal tt, snd (m w)).

(** [text.toLowerCase().trim()] *)
Definition normalise (text : string) : string :=
  JsString.trim (JsString.toLowerCase text).

Definition enroll_command (t : string) : M unit :=
  match JsString.match_enroll_name t with
  | Some name =>
      if negb (JsString.array_includes ["my"; "voice"; "me"] name) then
        owners <- getOwners ;;
        (if negb (JsString.array_includes owners name) then
           addOwner name ;;
           owners' <- getOwners ;;
           setOwnersState owners'
         else ret tt) ;;
        startEnrollment name
      else startEnrollment "owner"
  | None => startEnrollment "owner"
  end.

Definition help_command : M unit :=
  updateStatus "info"
    ("COMMANDS:" ++ JsString.newline ++ "• Home / Dashboard" ++ JsString.newline
     ++ "• Vibrations / Sensors" ++ JsString.newline ++ "• Notifications"
     ++ JsString.newline ++ "• Profile" ++ JsString.newline ++ "• Settings") ;;
  speak "Available commands: home, vibrations, notifications, profile, settings, unlock, enroll, and help." ;;
  setTimeout CbIdle 5000.

Definition reset_command : M unit :=
  removeItem_password ;;
  removeItem_enrolled_owners ;;
  removeItem_owners ;;
  setIsEnrolled false ;;
  setIsVerified false ;;
  setCurrentUser None ;;
  setEnrolledOwnersState [] ;;
  setOwnersState ["owner"] ;;
  updateStatus "success" "SYSTEM RESET" ;;
  speak "System has been reset." ;;
  setTimeout CbIdle 2000.

(** "Must be authenticated first" *)
Definition locked_response : M unit :=
  updateStatus "locked" "🔒 SAY 'UNLOCK' FIRST" ;;
  speak "Please say unlock to authenticate." ;;
  setTimeout CbIdle 3000.

(** "Execute navigation" *)
Definition execute_navigation (nav : Nav.t) : M unit :=
  navigate (Nav.r nav) ;;
  updateStatus "success" ("→ " ++ JsString.toUpperCase (Nav.n nav)) ;;
  speak (Nav.n nav) ;;
  setTimeout CbIdle 2000.

(** [`🚫 ACCESS DENIED\nConfidence: ${score}%`] with
    [score = Math.round(voiceCheck.score * 100)] *)
Definition access_denied_message (score : Q) : string :=
  "🚫 ACCESS DENIED" ++ JsString.newline ++ "Confidence: "
  ++ Number.to_string
       (Math_round (Number.mul (Number.of_Q score) (Number.of_Q 100)))
  ++ "%".

(** [enrolledOwners.length > 0 && audioBlob && audioBlob.size > 1000] *)
Definition live_check_applies (enrolledOwners : list string)
    (audioBlob : option Blob) : bool :=
  (0 <? List.length enrolledOwners)%nat
  && match audioBlob with
     | Some blob => (1000 <? size blob)%N
     | None => false
     end.

(** "Live voice verification": [false] is the [return] after a denial. *)
Definition live_voice_verification (audioBlob : option Blob) : M bool :=
  updateStatus "verifying" "🔐 VERIFYING VOICE..." ;;
  try_catch
    (voiceCheck <- identifyVoice audioBlob ;;
     if negb (Ident.identified voiceCheck) then
       updateStatus "denied" (access_denied_message (Ident.score voiceCheck)) ;;
       speak "Access denied. Voice not recognized." ;;
       setTimeout CbIdle 3000 ;;
       ret false
     else
       setCurrentUser (Ident.user voiceCheck) ;;
       ret true)
    (fun _ => ret true).

(** The body of [if (nav.p.test(t)) { ... }] *)
Definition navigation_command (isVerified : bool) (enrolledOwners : list string)
    (audioBlob : option Blob) (nav : Nav.t) : M unit :=
  if negb isVerified then locked_response
  else
    proceed <-
      (if live_check_applies enrolledOwners audioBlob
       then live_voice_verification audioBlob
       else ret true) ;;
    if proceed : bool then execute_navigation nav else ret tt.

(** [for (const nav of NAV) { if (nav.p.test(t)) { ... return; } }]:
    the first entry whose pattern matches. *)
Definition matching_nav (t : string) : option Nav.t :=
  find (fun nav => JsString.test_words (Nav.p nav) t) NAV.

Definition is_auth_command (t : string) : bool :=
  JsString.includes t "verify" || JsString.includes t "authenticate"
  || JsString.includes t "login" || JsString.includes t "unlock".

Definition is_help_command (t : string) : bool :=
  JsString.includes t "help" || JsString.includes t "what can".

Definition is_reset_command (t : string) : bool :=
  JsString.includes t "reset" && JsString.includes t "all".

(** [isVerified] and [enrolledOwners] are the values in the closure. *)
Definition processCommand (text : string) (audioBlob : option Blob) : M unit :=
  let t := normalise text in
  isVerified <- read (fun w => isVerified (session w)) ;;
  enrolledOwners <- read (fun w => enrolledOwners (profiles w)) ;;
  if JsString.includes t "enroll" then enroll_command t
  else if is_auth_command t then detached performVerification
  else if is_help_command t then help_command
  else if is_reset_command t then reset_command
  else
    match matching_nav t with
    | Some nav => navigation_command isVerified enrolledOwners audioBlob nav
    | None =>
        updateStatus "idle" "❓ SAY 'HELP'" ;;
        setTimeout CbIdle 2000
    end.

(* ------------------------------------------------------------------ *)
(** *** Timers *)

(** What a callback handed to [setTimeout] does when the timer fires. *)
Definition fire (cb : Callback) : M unit :=
  match cb with
  | CbIdle => updateStatus "idle" ""
  | CbIdleUnlessVerified status =>
      if negb (String.eqb status "verified") then updateStatus "idle" ""
      else ret tt
  | CbPending (ActRunEnrollment ownerName) => detached (runEnrollment ownerName)
  end.

End Controller.

(* ================================================================== *)
(** ** Vocabulary of the properties *)
(* ================================================================== *)

(** The intent of a normalised transcript: the branch that
    [processCommand] takes, in the order of its tests. *)
Inductive Intent : Type :=
| IntentEnroll
| IntentAuthenticate
| IntentHelp
| IntentFullReset
| IntentNavigate (nav : Nav.t)
| IntentUnmatched.

Definition classify (t : string) : Intent :=
  if JsString.includes t "enroll" then IntentEnroll
  else if is_auth_command t then IntentAuthenticate
  else if is_help_command t then IntentHelp
  else if is_reset_command t then IntentFullReset
  else
    match matching_nav t with
    | Some nav => IntentNavigate nav
    | None => IntentUnmatched
    end.

(** The events that a run from [w] to [w'] added to the trace. *)
Definition added (w w' : World) : list Event :=
  firstn (List.length (trace w') - List.length (trace w)) (trace w').

(** The world with more events in its trace, the first of [evs] being the
    newest. *)
Definition extend (evs : list Event) (w : World) : World := fold_right log w evs.

Definition is_authenticate (e : Event) : bool :=
  match e with EvAuthenticate _ _ _ => true | _ => false end.

Definition is_capture (e : Event) : bool :=
  match e with EvRecordAudio _ _ => true | _ => false end.

Definition is_backend_call (e : Event) : bool :=
  match e with
  | EvAuthenticate _ _ _ | EvEnroll _ _ _ _ | EvStartChallenge _ _
  | EvVerifyChallenge _ _ _ _ => true
  | _ => false
  end.

Definition is_navigate (e : Event) : bool :=
  match e with EvNavigate _ => true | _ => false end.

(** The recordings among some events, oldest first. *)
Definition captures (evs : list Event) : list Event :=
  filter is_capture (rev evs).

(* ------------------------------------------------------------------ *)
(** *** Concrete situations *)

(** An audio sample of [len] bytes. *)
Definition sample (len : nat) : Blob := repeat Byte.x00 len.

(** The component after its initialisation against a healthy backend,
    with nothing stored. *)
Definition fresh : World :=
  mkWorld (mkStorage None None None)
    (mkSession "idle" "" false None)
    (mkProfiles "ready" false [] ["owner"])
    (mkRun false 0 "")
    (mkPin false "setup" "" "" "" None)
    false [].

(** [profiles] enrolled, in storage and in the React state. *)
Definition enrolled_world (names : list string) (verified : bool) : World :=
  mkWorld (mkStorage (Some "1234") None (Some (JsonArray names)))
    (mkSession "idle" "" verified None)
    (mkProfiles "ready" true names ("owner" :: names))
    (mkRun false 0 "")
    (mkPin false "verify" "" "" "" None)
    false [].

(** A backend that cannot be reached and a microphone that fails. *)
Definition outage : Env.t :=
  Env.mk
    (fun _ _ => Thrown (mkError "Microphone unavailable"))
    (fun _ _ _ => Thrown (mkError "Failed to fetch"))
    (fun _ _ _ _ => Thrown (mkError "Failed to fetch"))
    (fun _ _ => Thrown (mkError "Failed to fetch"))
    (fun _ _ _ _ => Thrown (mkError "Failed to fetch"))
    false
    (fun _ => "").

(** A backend that accepts everything; recordings are 1500 bytes long;
    [verdict] is the answer to the challenge. *)
Definition agreeable (verdict : Verify.t) : Env.t :=
  Env.mk
    (fun _ _ => Normal (Some (sample 1500)))
    (fun _ _ _ => Normal (Auth.mk true (9 # 10) "ACCEPT"))
    (fun _ _ _ _ => Normal (Enroll.mk true "enrolled"))
    (fun _ _ => Normal (Challenge.mk true "" "Home sweet home" "session-1"))
    (fun _ _ _ _ => Normal verdict)
    true
    (fun _ => "home sweet home").

(** The candidates of P5: [A] is not authenticated with confidence 0.9,
    every other profile is authenticated with confidence 0.3. *)
Definition candidates_P5 : Env.t :=
  Env.mk
    (fun _ _ => Normal (Some (sample 1500)))
    (fun _ userId _ =>
       if String.eqb userId "voice_A"
       then Normal (Auth.mk false (9 # 10) "REJECT")
       else Normal (Auth.mk true (3 # 10) "ACCEPT"))
    (fun _ _ _ _ => Normal (Enroll.mk true "enrolled"))
    (fun _ _ => Normal (Challenge.mk true "" "Home sweet home" "session-1"))
    (fun _ _ _ _ => Normal (Verify.mk true true true))
    false
    (fun _ => "").

(** A verified session whose stored enrolled list is not JSON. *)
Definition unreadable_world : World :=
  mkWorld (mkStorage (Some "1234") None (Some (NotJson (mkError "Unexpected token"))))
    (mkSession "idle" "" true (Some "owner"))
    (mkProfiles "ready" true ["owner"] ["owner"])
    (mkRun false 0 "")
    (mkPin false "verify" "" "" "" None)
    false [].

(* ------------------------------------------------------------------ *)
(** *** Handlers of the dialogs *)

(** The "×" button of a profile in the profile dialog:
    [() => { removeOwner(o); setOwnersState(getOwners());
             setEnrolledOwnersState(getEnrolledOwners()); }] *)
Definition remove_profile_click (o : string) : M unit :=
  removeOwner o ;;
  owners <- getOwners ;;
  setOwnersState owners ;;
  enrolled <- getEnrolledOwners ;;
  setEnrolledOwnersState enrolled.

(** [value.replace(/\D/g, "")] *)
Fixpoint digits_only (value : string) : string :=
  match value with
  | EmptyString => EmptyString
  | String c rest =>
      if JsString.is_digit c then String c (digits_only rest) else digits_only rest
  end.

(** [onChange] of the PIN field and of its confirmation. *)
Definition pin_change (value : string) : M unit := setPinValue (digits_only value).
Definition pin_confirm_change (value : string) : M unit :=
  setPinConfirmValue (digits_only value).

(* ------------------------------------------------------------------ *)
(** *** Vocabulary for the scan of [identifyVoice] *)

(** The calls of one scan, newest first: one per enrolled profile, with
    the sample and the answer it got. *)
Definition scan_calls (audioBlob : Blob) (enrolled : list string)
    (answers : list (Completion Auth.t)) : list Event :=
  rev (map (fun oa => EvAuthenticate (getUserId (fst oa)) audioBlob (snd oa))
         (combine enrolled answers)).

(** A backend that accepts everything while the recorder only delivers 10
    bytes. *)
Definition faint : Env.t :=
  Env.mk
    (fun _ _ => Normal (Some (sample 10)))
    (fun _ _ _ => Normal (Auth.mk true (9 # 10) "ACCEPT"))
    (fun _ _ _ _ => Normal (Enroll.mk true "enrolled"))
    (fun _ _ => Normal (Challenge.mk true "" "Home sweet home" "session-1"))
    (fun _ _ _ _ => Normal (Verify.mk true true true))
    true
    (fun _ => "home sweet home").

(** A backend that rejects every speaker with confidence 0.285. *)
Definition doubtful : Env.t :=
  Env.mk
    (fun _ _ => Normal (Some (sample 1500)))
    (fun _ _ _ => Normal (Auth.mk false (285 # 1000) "REJECT"))
    (fun _ _ _ _ => Normal (Enroll.mk true "enrolled"))
    (fun _ _ => Normal (Challenge.mk true "" "Home sweet home" "session-1"))
    (fun _ _ _ _ => Normal (Verify.mk true true true))
    false
    (fun _ => "").

(** The PIN dialog open in setup mode with two digits typed. *)
Definition short_pin_world : World :=
  with_pin (fun _ => mkPin true "setup" "12" "12" "" (Some (ActRunEnrollment "owner")))
    fresh.

(* ================================================================== *)
(** ** Properties *)
(* ================================================================== *)

(** *** The trace only grows *)

Lemma added_app : forall w w' evs,
  trace w' = (evs ++ trace w)%list -> added w w' = evs.
Proof.
  intros w w' evs H. unfold added. rewrite H, length_app.
  replace (List.length evs + List.length (trace w) - List.length (trace w))%nat
    with (List.length evs) by lia.
  rewrite firstn_app, firstn_all, Nat.sub_diag. cbv [firstn]. apply app_nil_r.
Qed.

Lemma added_none : forall w w', trace w' = trace w -> added w w' = [].
Proof. intros w w' H. apply added_app. exact H. Qed.

Lemma trace_extend : forall evs w, trace (extend evs w) = (evs ++ trace w)%list.
Proof.
  induction evs as [ | e evs IH ]; intros w; [ reflexivity | ].
  transitivity (e :: trace (extend evs w)); [ reflexivity | ].
  rewrite IH. reflexivity.
Qed.

Lemma extend_app : forall evs evs' w,
  extend (evs ++ evs') w = extend evs (extend evs' w).
Proof. intros evs evs' w. unfold extend. apply fold_right_app. Qed.

(** Case analysis on the answer that blocks the evaluation. *)
Ltac break_scrutinee :=
  match goal with
  | |- context [match ?x with _ => _ end] =>
      lazymatch x with
      | context [match _ with _ => _ end] => fail
      | _ => destruct x eqn:?
      end
  end.

Ltac events_before t t0 :=
  lazymatch t with
  | t0 => constr:(@nil Event)
  | ?e :: ?rest => let p := events_before rest t0 in constr:(e :: p)
  end.

(** Replaces [added w w'] by the events that [w'] has in front of the
    trace of [w], both worlds being explicit. *)
Ltac reduce_added :=
  repeat match goal with
  | |- context [added ?a ?b] =>
      let t0 := eval cbv [trace] in (trace a) in
      let t := eval cbv [trace] in (trace b) in
      let p := events_before t t0 in
      rewrite (added_app a b p eq_refl)
  end.

Ltac reduce_captures :=
  repeat match goal with
  | |- context [captures ?l] =>
      let v := eval cbv [captures rev filter is_capture List.app] in (captures l) in
      change (captures l) with v
  end.

Ltac split_In H :=
  cbv [In] in H;
  repeat (let H' := fresh in destruct H as [H' | H]; [ try discriminate H' | ]);
  try contradiction.

(** Symbolic evaluation of the controller: everything is unfolded but
    the operations on data that is not known. *)
Ltac run :=
  cbv -[String.eqb String.append String.length Nat.eqb Nat.ltb Nat.leb N.ltb
        List.length List.app size added captures In JsString.toUpperCase
        JsString.of_Z JsString.truthy JsString.array_includes
        JsString.includes JsString.match_enroll_name JsString.is_digit
        forallb filter Qgtb Qle_bool Math_round Qmult
        first_or_owner consider denied_message access_denied_message
        four_digits normalise classify matching_nav
        Env.recordAudio Env.authenticateVoice Env.enrollUser
        Env.startChallenge Env.verifyChallengeWithText Env.recognize
        Env.SpeechRecognition].

Section Properties.

Variable env : Env.t.

(** [processCommand] runs the branch that [classify] names. *)
Lemma processCommand_dispatch : forall text audioBlob w,
  processCommand env text audioBlob w =
  match classify (normalise text) with
  | IntentEnroll => enroll_command (normalise text) w
  | IntentAuthenticate => detached (performVerification env) w
  | IntentHelp => help_command w
  | IntentFullReset => reset_command w
  | IntentNavigate nav =>
      navigation_command env (isVerified (session w)) (enrolledOwners (profiles w))
        audioBlob nav w
  | IntentUnmatched =>
      (updateStatus "idle" "❓ SAY 'HELP'" ;; setTimeout CbIdle 2000) w
  end.
Proof.
  intros text audioBlob w. unfold processCommand, classify.
  cbv beta zeta. unfold bind at 1 2. unfold read.
  destruct (JsString.includes (normalise text) "enroll"); [ reflexivity | ].
  destruct (is_auth_command (normalise text)); [ reflexivity | ].
  destruct (is_help_command (normalise text)); [ reflexivity | ].
  destruct (is_reset_command (normalise text)); [ reflexivity | ].
  destruct (matching_nav (normalise text)); reflexivity.
Qed.

(** C7.  While an enrollment is running ([enrollmentInProgressRef.current]
    is set), [runEnrollment] returns at once and changes nothing: storage,
    React state, the guard and the trace are those it was called with. *)
Theorem runEnrollment_refused_while_running : forall ownerName w,
  enrollmentInProgressRef w = true ->
  runEnrollment env ownerName w = (Normal tt, w).
Proof.
  intros ownerName w H. unfold runEnrollment, bind, read. rewrite H. reflexivity.
Qed.

(** C9.  With no enrolled profile in storage, [identifyVoice] answers
    [identified = true] with score 1 for every audio sample, also an absent
    one, and leaves the world as it was: no backend call is made. *)
Theorem identifyVoice_open_gate : forall audioBlob w,
  completion getEnrolledOwners w = Normal [] ->
  identifyVoice env audioBlob w = (Normal (Ident.mk true None 1 None None), w).
Proof.
  intros audioBlob w H. unfold completion in H.
  assert (E : getEnrolledOwners w = (Normal [], w)).
  { unfold getEnrolledOwners, bind, read, parse_item in *.
    destruct (synap_enrolled_owners (storage w)) as [ [ l | e ] | ];
      cbv [fst] in H; try discriminate H; [ | reflexivity ].
    injection H as ->. reflexivity. }
  unfold identifyVoice, bind. rewrite E. reflexivity.
Qed.

(** C8.  A transcript that reaches the reset branch clears the stored PIN,
    leaves no enrolled profile and only the default profile, in storage and
    in the React state, and ends with [verified = false] and no current
    user. *)
Theorem full_reset_clears_registry_and_session : forall text audioBlob w,
  classify (normalise text) = IntentFullReset ->
  completion (processCommand env text audioBlob) w = Normal tt
  /\ synap_owner_password (storage (exec (processCommand env text audioBlob) w)) = None
  /\ completion hasOwnerPassword (exec (processCommand env text audioBlob) w)
     = Normal false
  /\ completion getEnrolledOwners (exec (processCommand env text audioBlob) w)
     = Normal []
  /\ completion getOwners (exec (processCommand env text audioBlob) w)
     = Normal ["owner"]
  /\ enrolledOwners (profiles (exec (processCommand env text audioBlob) w)) = []
  /\ owners (profiles (exec (processCommand env text audioBlob) w)) = ["owner"]
  /\ isEnrolled (profiles (exec (processCommand env text audioBlob) w)) = false
  /\ isVerified (session (exec (processCommand env text audioBlob) w)) = false
  /\ currentUser (session (exec (processCommand env text audioBlob) w)) = None.
Proof.
  intros text audioBlob w H. unfold exec, completion.
  rewrite processCommand_dispatch, H. vm_compute. repeat split; reflexivity.
Qed.

(** The world after the answer to a navigation command given while the
    session is not verified. *)
Lemma navigation_command_locked : forall enrolledOwners audioBlob nav w,
  navigation_command env false enrolledOwners audioBlob nav w
  = (Normal tt,
     log (EvSetTimeout CbIdle 3000)
       (log (EvSpeak "Please say unlock to authenticate.")
          (exec (updateStatus "locked" "🔒 SAY 'UNLOCK' FIRST") w))).
Proof. reflexivity. Qed.

(** C3.  A transcript classified as a navigation, processed while
    [isVerified] is false, ends in the status [locked]; the run speaks and
    sets the timer that clears the status, and does not call the router. *)
Theorem navigate_while_unverified_is_locked : forall text audioBlob w nav,
  classify (normalise text) = IntentNavigate nav ->
  isVerified (session w) = false ->
  completion (processCommand env text audioBlob) w = Normal tt
  /\ status (session (exec (processCommand env text audioBlob) w)) = "locked"
  /\ statusMessage (session (exec (processCommand env text audioBlob) w))
     = "🔒 SAY 'UNLOCK' FIRST"
  /\ added w (exec (processCommand env text audioBlob) w)
     = [EvSetTimeout CbIdle 3000; EvSpeak "Please say unlock to authenticate."]
  /\ (forall route,
        ~ In (EvNavigate route) (added w (exec (processCommand env text audioBlob) w)))
  /\ storage (exec (processCommand env text audioBlob) w) = storage w
  /\ isVerified (session (exec (processCommand env text audioBlob) w)) = false
  /\ currentUser (session (exec (processCommand env text audioBlob) w))
     = currentUser (session w).
Proof.
  intros text audioBlob w nav H V. unfold exec, completion.
  rewrite processCommand_dispatch, H, V, navigation_command_locked.
  cbv [fst snd].
  match goal with |- context [added w ?x] =>
    assert (A : added w x
                = [EvSetTimeout CbIdle 3000; EvSpeak "Please say unlock to authenticate."])
      by (apply added_app; reflexivity)
  end.
  rewrite A. repeat split; try reflexivity; try exact V.
  intros route [E | [E | []]]; discriminate E.
Qed.

(* ------------------------------------------------------------------ *)
(** *** [identifyVoice] *)

(** One turn of the loop of [identifyVoice]: the call is recorded and the
    best match is updated unless the call failed or the profile has no
    voiceprint. *)
Lemma scan_cons : forall audioBlob owner rest bestMatch w,
  scan env audioBlob (owner :: rest) bestMatch w
  = scan env audioBlob rest
      (match Env.authenticateVoice env (trace w) (getUserId owner) audioBlob with
       | Normal result =>
           if String.eqb (Auth.decision result) "NOT_ENROLLED" then bestMatch
           else consider owner result bestMatch
       | Thrown _ => bestMatch
       end)
      (log (EvAuthenticate (getUserId owner) audioBlob
              (Env.authenticateVoice env (trace w) (getUserId owner) audioBlob)) w).
Proof.
  intros audioBlob owner rest bestMatch w.
  change (scan env audioBlob (owner :: rest) bestMatch w)
    with (bind
            (try_catch
               (bind (authenticateVoice env (getUserId owner) audioBlob)
                  (fun result =>
                     if String.eqb (Auth.decision result) "NOT_ENROLLED"
                     then ret bestMatch
                     else ret (consider owner result bestMatch)))
               (fun _ => ret bestMatch))
            (fun next => scan env audioBlob rest next) w).
  unfold bind, try_catch, authenticateVoice, ask, ret.
  destruct (Env.authenticateVoice env (trace w) (getUserId owner) audioBlob)
    as [result | e]; [ | reflexivity ].
  destruct (String.eqb (Auth.decision result) "NOT_ENROLLED"); reflexivity.
Qed.

(** The loop completes normally, and all it does to the world is to call
    [authenticateVoice] once per enrolled profile. *)
Lemma scan_effect : forall audioBlob enrolled bestMatch w,
  exists evs,
    exec (scan env audioBlob enrolled bestMatch) w = extend evs w
    /\ (exists best, completion (scan env audioBlob enrolled bestMatch) w = Normal best)
    /\ List.length evs = List.length enrolled
    /\ Forall (fun e => is_authenticate e = true) evs.
Proof.
  intros audioBlob enrolled. induction enrolled as [ | owner rest IH ];
    intros bestMatch w.
  - exists []. repeat split; [ eexists; reflexivity | constructor ].
  - unfold exec, completion. rewrite scan_cons.
    match goal with |- context [scan env audioBlob rest ?b ?w'] =>
      destruct (IH b w') as (evs & E & (best & C) & L & F) end.
    unfold exec, completion in E, C.
    exists (evs ++ [EvAuthenticate (getUserId owner) audioBlob
                     (Env.authenticateVoice env (trace w) (getUserId owner) audioBlob)])%list.
    rewrite E, C. repeat split.
    + symmetry. apply extend_app.
    + exists best. reflexivity.
    + rewrite length_app, L. cbv [List.length]. lia.
    + apply Forall_app. split; [ exact F | repeat constructor ].
Qed.

(** When every answer of [authenticateVoice] is a failure or
    [NOT_ENROLLED], the loop returns the best match it started with. *)
Lemma scan_without_candidates : forall audioBlob enrolled bestMatch w,
  (forall h userId audio,
      match Env.authenticateVoice env h userId audio with
      | Normal result => Auth.decision result = "NOT_ENROLLED"
      | Thrown _ => True
      end) ->
  completion (scan env audioBlob enrolled bestMatch) w = Normal bestMatch.
Proof.
  intros audioBlob enrolled bestMatch w H. revert w.
  induction enrolled as [ | owner rest IH ]; intros w; [ reflexivity | ].
  unfold completion. rewrite scan_cons.
  specialize (H (trace w) (getUserId owner) audioBlob).
  destruct (Env.authenticateVoice env (trace w) (getUserId owner) audioBlob)
    as [result | e].
  - rewrite H. apply IH.
  - apply IH.
Qed.

Lemma array_includes_In : forall l name,
  JsString.array_includes l name = true -> In name l.
Proof.
  intros l name H. unfold JsString.array_includes in H.
  apply existsb_exists in H. destruct H as (x & I & E).
  apply String.eqb_eq in E. subst x. exact I.
Qed.

(** C6.  For a run of [runEnrollment] that starts (the guard is free):
    it ends in the status [success] only after exactly three recordings
    that all succeeded, followed by a call of [enrollUser] on these three
    samples that answered [success], and then the profile is in the
    enrolled list; and when one of the recordings fails, the run ends in
    the status [error] with the message of the failure, releases the guard,
    leaves storage and the profile state as they were, does not call
    [enrollUser], and the failed recording is the last one of at most
    three. *)
Theorem enrollment_needs_three_captures : forall ownerName w,
  enrollmentInProgressRef w = false ->
  (status (session (exec (runEnrollment env ownerName) w)) = "success" ->
   exists s1 s2 s3 result enrolled,
     captures (added w (exec (runEnrollment env ownerName) w))
     = [EvRecordAudio 4000 (Normal s1); EvRecordAudio 4000 (Normal s2);
        EvRecordAudio 4000 (Normal s3)]
     /\ In (EvEnroll (getUserId ownerName) [s1; s2; s3] true (Normal result))
          (added w (exec (runEnrollment env ownerName) w))
     /\ Enroll.success result = true
     /\ completion getEnrolledOwners (exec (runEnrollment env ownerName) w)
        = Normal enrolled
     /\ In ownerName enrolled)
  /\ (forall e,
        In (EvRecordAudio 4000 (Thrown e)) (added w (exec (runEnrollment env ownerName) w)) ->
        status (session (exec (runEnrollment env ownerName) w)) = "error"
        /\ statusMessage (session (exec (runEnrollment env ownerName) w)) = message e
        /\ enrollmentInProgressRef (exec (runEnrollment env ownerName) w) = false
        /\ isEnrolling (run (exec (runEnrollment env ownerName) w)) = false
        /\ storage (exec (runEnrollment env ownerName) w) = storage w
        /\ profiles (exec (runEnrollment env ownerName) w) = profiles w
        /\ (forall userId samples flag res,
              ~ In (EvEnroll userId samples flag res)
                  (added w (exec (runEnrollment env ownerName) w)))
        /\ exists before,
             captures (added w (exec (runEnrollment env ownerName) w))
             = (before ++ [EvRecordAudio 4000 (Thrown e)])%list
             /\ (List.length before < 3)%nat
             /\ Forall (fun c => exists s, c = EvRecordAudio 4000 (Normal s)) before).
Proof.
  intros ownerName w G.
  destruct w as [[pw ow eo] [st sm iv cu] [vas ie eos os] [ien es cep]
                   [spm pmm pv pcv pe pa] g tr].
  cbv [enrollmentInProgressRef] in G. subst g.
  run. repeat (break_scrutinee; run).
  all: reduce_added; reduce_captures.
  all: split; [ intro S; try discriminate S | intros err I; split_In I ].
  all: try (do 5 eexists;
            split; [ reflexivity | ];
            split; [ right; right; left; reflexivity | ];
            split; [ reflexivity | ];
            split; [ reflexivity | ];
            first [ apply array_includes_In; assumption
                  | apply in_or_app; right; left; reflexivity ]).
  all: match goal with H : EvRecordAudio _ _ = EvRecordAudio _ _ |- _ =>
         inversion H; subst; clear H end.
  all: repeat split; try reflexivity;
       try (intros ? ? ? ? J; split_In J);
       match goal with |- exists before, ?l = _ /\ _ =>
         exists (removelast l); repeat split; try (cbv; lia);
         repeat constructor; eexists; reflexivity
       end.
Qed.

(* ------------------------------------------------------------------ *)
(** *** Timers *)

(** [runEnrollment] leaves the verified flag and the current user alone. *)
Lemma runEnrollment_keeps_identity : forall ownerName w,
  isVerified (session (exec (runEnrollment env ownerName) w)) = isVerified (session w)
  /\ currentUser (session (exec (runEnrollment env ownerName) w))
     = currentUser (session w).
Proof.
  intros ownerName w.
  destruct w as [[pw ow eo] [st sm iv cu] [vas ie eos os] [ien es cep]
                   [spm pmm pv pcv pe pa] g tr].
  run. repeat (break_scrutinee; run). all: split; reflexivity.
Qed.

(** No timer callback changes the verified flag or the current user. *)
Lemma fire_keeps_identity : forall cb w,
  isVerified (session (exec (fire env cb) w)) = isVerified (session w)
  /\ currentUser (session (exec (fire env cb) w)) = currentUser (session w).
Proof.
  intros [ | st | [ownerName] ] w.
  - split; reflexivity.
  - unfold fire. destruct (negb (String.eqb st "verified")); split; reflexivity.
  - apply (runEnrollment_keeps_identity ownerName w).
Qed.

(* ------------------------------------------------------------------ *)
(** *** [performVerification] *)

(** The message of a denial tells the outcome of each check. *)
Lemma denied_message_inj : forall voiceOk phraseOk voiceOk' phraseOk',
  denied_message voiceOk phraseOk = denied_message voiceOk' phraseOk' ->
  voiceOk = voiceOk' /\ phraseOk = phraseOk'.
Proof.
  intros [] [] [] []; vm_compute; intros H;
    first [ split; reflexivity | discriminate H ].
Qed.

(** What a run that reached [verifyChallengeWithText] leaves behind. *)
Lemma verification_verdict : forall w sessionId audio spokenText result,
  In (EvVerifyChallenge sessionId audio spokenText (Normal result))
     (added w (exec (performVerification env) w)) ->
  if Verify.success result && Verify.speakerMatch result && Verify.phraseMatch result
  then
    status (session (exec (performVerification env) w)) = "verified"
    /\ isVerified (session (exec (performVerification env) w)) = true
    /\ currentUser (session (exec (performVerification env) w))
       = Some (first_or_owner (enrolledOwners (profiles w)))
  else
    status (session (exec (performVerification env) w)) = "denied"
    /\ statusMessage (session (exec (performVerification env) w))
       = denied_message (Verify.speakerMatch result) (Verify.phraseMatch result)
    /\ isVerified (session (exec (performVerification env) w))
       = isVerified (session w)
    /\ currentUser (session (exec (performVerification env) w))
       = currentUser (session w).
Proof.
  intros w sessionId audio spokenText result.
  destruct w as [[pw ow eo] [st sm iv cu] [vas ie eos os] [ien es cep]
                   [spm pmm pv pcv pe pa] g tr].
  run. repeat (break_scrutinee; run).
  all: reduce_added.
  all: intros I; split_In I.
  all: match goal with H : EvVerifyChallenge _ _ _ _ = EvVerifyChallenge _ _ _ _ |- _ =>
         inversion H; subst; clear H end.
  all: repeat split; reflexivity.
Qed.

(** C2 (amended).  For a run of [performVerification] that reached the
    verify call and got a result: when [success], [speakerMatch] and
    [phraseMatch] are all true the session ends in the status [verified]
    with [isVerified = true] and the current user bound to the target
    profile, and no timer callback undoes the flag or the binding; for any
    other combination it ends in the status [denied], the verified flag and
    the current user are as before, and the message tells the outcome of
    the speaker check and of the phrase check separately. *)
Theorem verification_outcome : forall w sessionId audio spokenText result,
  In (EvVerifyChallenge sessionId audio spokenText (Normal result))
     (added w (exec (performVerification env) w)) ->
  (if Verify.success result && Verify.speakerMatch result && Verify.phraseMatch result
   then
     status (session (exec (performVerification env) w)) = "verified"
     /\ isVerified (session (exec (performVerification env) w)) = true
     /\ currentUser (session (exec (performVerification env) w))
        = Some (first_or_owner (enrolledOwners (profiles w)))
     /\ (forall cb,
           isVerified (session (exec (fire env cb) (exec (performVerification env) w)))
           = true
           /\ currentUser
                (session (exec (fire env cb) (exec (performVerification env) w)))
              = Some (first_or_owner (enrolledOwners (profiles w))))
   else
     status (session (exec (performVerification env) w)) = "denied"
     /\ statusMessage (session (exec (performVerification env) w))
        = denied_message (Verify.speakerMatch result) (Verify.phraseMatch result)
     /\ isVerified (session (exec (performVerification env) w))
        = isVerified (session w)
     /\ currentUser (session (exec (performVerification env) w))
        = currentUser (session w))
  /\ (forall voiceOk phraseOk,
        denied_message voiceOk phraseOk
        = denied_message (Verify.speakerMatch result) (Verify.phraseMatch result) ->
        voiceOk = Verify.speakerMatch result /\ phraseOk = Verify.phraseMatch result).
Proof.
  intros w sessionId audio spokenText result I.
  split; [ | intros voiceOk phraseOk; apply denied_message_inj ].
  pose proof (verification_verdict w sessionId audio spokenText result I) as V.
  destruct (Verify.success result && Verify.speakerMatch result
            && Verify.phraseMatch result); [ | exact V ].
  destruct V as (S & A & U).
  split; [ exact S | split; [ exact A | split; [ exact U | ] ] ].
  intros cb.
  destruct (fire_keeps_identity cb (exec (performVerification env) w)) as [A' U'].
  rewrite A', U'. split; assumption.
Qed.

(* ------------------------------------------------------------------ *)
(** *** Navigation commands of a verified session *)

Ltac run_navigation :=
  cbv -[String.eqb String.append String.length Nat.eqb Nat.ltb Nat.leb N.ltb
        List.length List.app size added captures In JsString.toUpperCase
        JsString.of_Z JsString.truthy JsString.array_includes
        JsString.includes forallb filter Qgtb Qle_bool Math_round Qmult
        access_denied_message normalise classify matching_nav identifyVoice].

(** The live check and what follows it. *)
Lemma navigation_command_checked : forall enrolledOwners blob nav w,
  enrolledOwners <> [] ->
  (1000 < size blob)%N ->
  navigation_command env true enrolledOwners (Some blob) nav w
  = let w1 := exec (updateStatus "verifying" "🔐 VERIFYING VOICE...") w in
    match identifyVoice env (Some blob) w1 with
    | (Normal voiceCheck, w2) =>
        if Ident.identified voiceCheck
        then execute_navigation nav (exec (setCurrentUser (Ident.user voiceCheck)) w2)
        else (Normal tt,
              log (EvSetTimeout CbIdle 3000)
                (log (EvSpeak "Access denied. Voice not recognized.")
                   (exec (updateStatus "denied"
                            (access_denied_message (Ident.score voiceCheck))) w2)))
    | (Thrown _, w2) => execute_navigation nav w2
    end.
Proof.
  intros enrolledOwners blob nav w NE L.
  unfold navigation_command, live_check_applies.
  destruct enrolledOwners as [ | first others ]; [ contradiction | ].
  apply N.ltb_lt in L. rewrite L.
  change (0 <? List.length (first :: others))%nat with true.
  destruct w as [[pw ow eo] [st sm iv cu] [vas ie eos os] [ien es cep]
                   [spm pmm pv pcv pe pa] g tr].
  run_navigation.
  match goal with |- context [identifyVoice env ?a ?b] =>
    destruct (identifyVoice env a b) as [[voiceCheck | e] w2] end;
    [ | destruct w2 as [? [? ? ? ?] ? ? ? ? ?]; reflexivity ].
  destruct voiceCheck as [[] user score decision error];
    destruct w2 as [? [? ? ? ?] ? ? ? ? ?]; reflexivity.
Qed.

(** The world after a navigation that was not checked. *)
Lemma added_execute_navigation : forall nav w,
  completion (execute_navigation nav) w = Normal tt
  /\ added w (exec (execute_navigation nav) w)
     = [EvSetTimeout CbIdle 2000; EvSpeak (Nav.n nav); EvNavigate (Nav.r nav)]
  /\ status (session (exec (execute_navigation nav) w)) = "success"
  /\ statusMessage (session (exec (execute_navigation nav) w))
     = "→ " ++ JsString.toUpperCase (Nav.n nav).
Proof.
  intros nav w. split; [ reflexivity | ]. split; [ | split; reflexivity ].
  apply added_app. reflexivity.
Qed.

(* ------------------------------------------------------------------ *)
(** *** Reading the enrolled list *)

Lemma getEnrolledOwners_spec : forall w,
  getEnrolledOwners w
  = (match synap_enrolled_owners (storage w) with
     | None => Normal []
     | Some (JsonArray l) => Normal l
     | Some (NotJson e) => Thrown e
     end, w).
Proof.
  intros w. unfold getEnrolledOwners, bind, read, parse_item.
  destruct (synap_enrolled_owners (storage w)) as [ [ l | e ] | ]; reflexivity.
Qed.

Lemma getEnrolledOwners_same_storage : forall w w',
  storage w' = storage w ->
  completion getEnrolledOwners w' = completion getEnrolledOwners w.
Proof.
  intros w w' H. unfold completion. rewrite !getEnrolledOwners_spec, H. reflexivity.
Qed.

Lemma storage_extend : forall evs w, storage (extend evs w) = storage w.
Proof.
  induction evs as [ | e evs IH ]; intros w; [ reflexivity | ].
  transitivity (storage (extend evs w)); [ reflexivity | apply IH ].
Qed.

(** All that [identifyVoice] does to the world is to call
    [authenticateVoice]. *)
Lemma identifyVoice_effect : forall audioBlob w,
  exists evs,
    exec (identifyVoice env audioBlob) w = extend evs w
    /\ Forall (fun e => is_authenticate e = true) evs.
Proof.
  intros audioBlob w. unfold exec, identifyVoice, bind.
  rewrite getEnrolledOwners_spec.
  destruct (synap_enrolled_owners (storage w)) as [ [ [ | owner rest ] | e ] | ];
    try (exists []; split; [ reflexivity | constructor ]).
  destruct audioBlob as [ blob | ];
    [ | exists []; split; [ reflexivity | constructor ] ].
  cbv [List.length Nat.eqb].
  destruct (size blob <? 1000)%N;
    [ exists []; split; [ reflexivity | constructor ] | ].
  destruct (scan_effect blob (owner :: rest) (Best.mk None 0 false "") w)
    as (evs & E & (best & C) & _ & F).
  exists evs. split; [ | exact F ].
  unfold exec in E. unfold completion in C.
  destruct (scan env blob (owner :: rest) (Best.mk None 0 false "") w) as [c w2].
  cbv [fst] in C. cbv [snd] in E. subst c w2. reflexivity.
Qed.

(** With candidates in storage and a sample of 1000 bytes or more,
    [identifyVoice] is the loop over the enrolled profiles. *)
Lemma identifyVoice_scans : forall blob enrolled w,
  completion getEnrolledOwners w = Normal enrolled ->
  enrolled <> [] ->
  (1000 <= size blob)%N ->
  identifyVoice env (Some blob) w
  = (bestMatch <- scan env blob enrolled (Best.mk None 0 false "") ;;
     ret (Ident.mk (Best.authenticated bestMatch) (Best.user bestMatch)
            (Best.score bestMatch) (Some (Best.decision bestMatch)) None)) w.
Proof.
  intros blob enrolled w E NE S. unfold completion in E.
  rewrite getEnrolledOwners_spec in E. cbv [fst] in E.
  unfold identifyVoice. unfold bind at 1. rewrite getEnrolledOwners_spec, E.
  destruct enrolled as [ | owner rest ]; [ contradiction | ].
  cbv [List.length Nat.eqb].
  apply N.ltb_ge in S. rewrite S. reflexivity.
Qed.

(** C10.  If every answer of [authenticateVoice] is a failure or the
    decision [NOT_ENROLLED], then for a non-empty enrolled list and a
    sample of at least 1000 bytes [identifyVoice] returns normally with
    [identified = false], no user and score 0; and a navigation command of
    a verified session that runs the live check on that sample is denied
    with confidence 0 and the router is not called. *)
Theorem outage_during_scan_denies : forall w blob enrolled,
  (forall h userId audio,
      match Env.authenticateVoice env h userId audio with
      | Normal result => Auth.decision result = "NOT_ENROLLED"
      | Thrown _ => True
      end) ->
  completion getEnrolledOwners w = Normal enrolled ->
  enrolled <> [] ->
  (1000 <= size blob)%N ->
  completion (identifyVoice env (Some blob)) w
  = Normal (Ident.mk false None 0 (Some "") None)
  /\ (forall text nav,
        classify (normalise text) = IntentNavigate nav ->
        isVerified (session w) = true ->
        enrolledOwners (profiles w) <> [] ->
        (1000 < size blob)%N ->
        completion (processCommand env text (Some blob)) w = Normal tt
        /\ status (session (exec (processCommand env text (Some blob)) w)) = "denied"
        /\ statusMessage (session (exec (processCommand env text (Some blob)) w))
           = "🚫 ACCESS DENIED" ++ JsString.newline ++ "Confidence: 0%"
        /\ (forall route,
              ~ In (EvNavigate route)
                  (added w (exec (processCommand env text (Some blob)) w)))).
Proof.
  intros w blob enrolled Out E NE S.
  assert (R : forall w1, storage w1 = storage w ->
            completion (identifyVoice env (Some blob)) w1
            = Normal (Ident.mk false None 0 (Some "") None)).
  { intros w1 St. unfold completion.
    rewrite (identifyVoice_scans blob enrolled w1);
      [ | rewrite (getEnrolledOwners_same_storage w w1 St); exact E | exact NE | exact S ].
    pose proof (scan_without_candidates blob enrolled (Best.mk None 0 false "") w1 Out) as C.
    unfold completion in C. unfold bind.
    destruct (scan env blob enrolled (Best.mk None 0 false "") w1) as [c w2].
    cbv [fst] in C. subst c. reflexivity. }
  split; [ apply R; reflexivity | ].
  intros text nav H V NEO L. unfold exec, completion.
  rewrite processCommand_dispatch, H, V.
  rewrite navigation_command_checked by assumption.
  cbv zeta.
  pose proof (R (exec (updateStatus "verifying" "🔐 VERIFYING VOICE...") w) eq_refl) as C.
  destruct (identifyVoice_effect (Some blob)
              (exec (updateStatus "verifying" "🔐 VERIFYING VOICE...") w))
    as (evs & X & F).
  unfold completion in C. unfold exec in X at 1.
  destruct (identifyVoice env (Some blob)
              (exec (updateStatus "verifying" "🔐 VERIFYING VOICE...") w)) as [c w2].
  cbv [fst] in C. cbv [snd] in X. subst c w2.
  cbv [Ident.identified Ident.score fst snd].
  split; [ reflexivity | ]. split; [ reflexivity | ]. split; [ reflexivity | ].
  intros route.
  erewrite added_app;
    [ | transitivity
          (EvSetTimeout CbIdle 3000
           :: EvSpeak "Access denied. Voice not recognized."
           :: trace (extend evs (exec (updateStatus "verifying" "🔐 VERIFYING VOICE...") w)));
        [ reflexivity | rewrite trace_extend; rewrite !app_comm_cons; reflexivity ] ].
  intros [ I | [ I | I ] ]; try discriminate I.
  rewrite Forall_forall in F. specialize (F _ I). discriminate F.
Qed.

(** The world after a navigation command of a verified session that does
    not run the live check. *)
Lemma navigation_command_unchecked : forall enrolledOwners audioBlob nav w,
  live_check_applies enrolledOwners audioBlob = false ->
  navigation_command env true enrolledOwners audioBlob nav w
  = execute_navigation nav w.
Proof.
  intros enrolledOwners audioBlob nav w H. unfold navigation_command.
  rewrite H. reflexivity.
Qed.

(** C5.  For a navigation command of a verified session: without a sample
    of more than 1000 bytes the command is the unchecked navigation, which
    calls the router with the route of the command, announces the page,
    ends in the status [success] and calls nothing else, so a run that
    calls [authenticateVoice] had such a sample; and yet [identifyVoice],
    with profiles enrolled, answers "No audio" with [identified = false]
    for an absent sample and for one below 1000 bytes. *)
Theorem live_check_needs_more_than_1000_bytes : forall text audioBlob w nav,
  classify (normalise text) = IntentNavigate nav ->
  isVerified (session w) = true ->
  (match audioBlob with
   | Some blob => (size blob <= 1000)%N
   | None => True
   end ->
   processCommand env text audioBlob w = execute_navigation nav w
   /\ completion (processCommand env text audioBlob) w = Normal tt
   /\ added w (exec (processCommand env text audioBlob) w)
      = [EvSetTimeout CbIdle 2000; EvSpeak (Nav.n nav); EvNavigate (Nav.r nav)]
   /\ status (session (exec (processCommand env text audioBlob) w)) = "success"
   /\ statusMessage (session (exec (processCommand env text audioBlob) w))
      = "→ " ++ JsString.toUpperCase (Nav.n nav)
   /\ isVerified (session (exec (processCommand env text audioBlob) w)) = true
   /\ currentUser (session (exec (processCommand env text audioBlob) w))
      = currentUser (session w)
   /\ storage (exec (processCommand env text audioBlob) w) = storage w)
  /\ ((exists e,
         In e (added w (exec (processCommand env text audioBlob) w))
         /\ is_authenticate e = true) ->
      exists blob, audioBlob = Some blob /\ (1000 < size blob)%N)
  /\ (forall enrolled,
        completion getEnrolledOwners w = Normal enrolled ->
        enrolled <> [] ->
        match audioBlob with
        | Some blob => (size blob < 1000)%N
        | None => True
        end ->
        identifyVoice env audioBlob w
        = (Normal (Ident.mk false None 0 None (Some "No audio")), w)).
Proof.
  intros text audioBlob w nav H V.
  assert (Skip : match audioBlob with
                 | Some blob => (size blob <= 1000)%N
                 | None => True
                 end ->
                 processCommand env text audioBlob w = execute_navigation nav w).
  { intros Small. rewrite processCommand_dispatch, H, V.
    apply navigation_command_unchecked. unfold live_check_applies.
    destruct audioBlob as [ blob | ]; [ | apply andb_false_r ].
    apply N.ltb_ge in Small. rewrite Small. apply andb_false_r. }
  split; [ | split ].
  - intros Small. split; [ exact (Skip Small) | ].
    unfold completion, exec. rewrite (Skip Small).
    destruct (added_execute_navigation nav w) as (C & A & S & M).
    split; [ exact C | ]. split; [ exact A | ]. split; [ exact S | ].
    split; [ exact M | ]. split; [ exact V | ]. split; reflexivity.
  - intros (e & I & A).
    destruct audioBlob as [ blob | ].
    + destruct (N.ltb_spec 1000 (size blob)) as [ Large | Small ];
        [ exists blob; split; [ reflexivity | exact Large ] | ].
      exfalso. unfold exec in I. rewrite (Skip Small) in I.
      destruct (added_execute_navigation nav w) as (_ & E & _).
      unfold exec in E. rewrite E in I.
      destruct I as [ I | [ I | [ I | [] ] ] ]; subst e; discriminate A.
    + exfalso. unfold exec in I. rewrite (Skip Logic.I) in I.
      destruct (added_execute_navigation nav w) as (_ & E & _).
      unfold exec in E. rewrite E in I.
      destruct I as [ I | [ I | [ I | [] ] ] ]; subst e; discriminate A.
  - intros enrolled E NE Small. unfold completion in E.
    rewrite getEnrolledOwners_spec in E. cbv [fst] in E.
    unfold identifyVoice, bind. rewrite getEnrolledOwners_spec, E.
    destruct enrolled as [ | owner rest ]; [ contradiction | ].
    cbv [List.length Nat.eqb].
    destruct audioBlob as [ blob | ]; [ | reflexivity ].
    apply N.ltb_lt in Small. rewrite Small. reflexivity.
Qed.

End Properties.

(* ================================================================== *)
(** ** Properties at concrete inputs *)
(* ================================================================== *)

(** C1.  With the candidates of P5, [A] not authenticated with
    confidence 0.9 and then [B] authenticated with confidence 0.3,
    [identifyVoice] keeps [A] and reports [identified = false]; with the
    same candidates in the other order it selects [B]. *)
Theorem identifyVoice_keeps_earlier_unauthenticated_candidate :
  completion (identifyVoice candidates_P5 (Some (sample 1500)))
    (enrolled_world ["A"; "B"] true)
  = Normal (Ident.mk false (Some "A") (9 # 10) (Some "REJECT") None)
  /\ completion (identifyVoice candidates_P5 (Some (sample 1500)))
       (enrolled_world ["B"; "A"] true)
     = Normal (Ident.mk true (Some "B") (3 # 10) (Some "ACCEPT") None).
Proof. split; vm_compute; reflexivity. Qed.


(** C2, as stated, fails: the backend answers [speakerMatch = true] and
    [phraseMatch = true] with [success = false], the run reaches the
    verify call, and the session is denied and stays unverified. *)
Lemma verification_denied_without_success :
  In (EvVerifyChallenge "session-1" (sample 1500) "home sweet home"
        (Normal (Verify.mk false true true)))
     (added (enrolled_world ["owner"] false)
        (exec (performVerification (agreeable (Verify.mk false true true)))
           (enrolled_world ["owner"] false)))
  /\ status (session
       (exec (performVerification (agreeable (Verify.mk false true true)))
          (enrolled_world ["owner"] false))) = "denied"
  /\ isVerified (session
       (exec (performVerification (agreeable (Verify.mk false true true)))
          (enrolled_world ["owner"] false))) = false
  /\ currentUser (session
       (exec (performVerification (agreeable (Verify.mk false true true)))
          (enrolled_world ["owner"] false))) = None.
Proof.
  split; [ vm_compute; right; right; left; reflexivity | ].
  repeat split; vm_compute; reflexivity.
Qed.

(* ------------------------------------------------------------------ *)
(** *** Instances *)

Lemma runEnrollment_refused_while_running_witness :
  runEnrollment outage "guest" (with_guard true fresh)
  = (Normal tt, with_guard true fresh).
Proof.
  apply (runEnrollment_refused_while_running outage "guest" (with_guard true fresh)).
  reflexivity.
Defined.

Lemma identifyVoice_open_gate_witness :
  identifyVoice outage (Some (sample 1500)) fresh
  = (Normal (Ident.mk true None 1 None None), fresh).
Proof.
  apply (identifyVoice_open_gate outage (Some (sample 1500)) fresh).
  reflexivity.
Defined.

Lemma full_reset_clears_registry_and_session_witness :
  synap_owner_password
    (storage (exec (processCommand outage "Reset ALL" None)
                (enrolled_world ["owner"; "guest"] true))) = None
  /\ isVerified
       (session (exec (processCommand outage "Reset ALL" None)
                   (enrolled_world ["owner"; "guest"] true))) = false.
Proof.
  assert (H : classify (normalise "Reset ALL") = IntentFullReset)
    by (vm_compute; reflexivity).
  pose proof (full_reset_clears_registry_and_session outage "Reset ALL" None
                (enrolled_world ["owner"; "guest"] true) H) as P.
  split; [ exact (proj1 (proj2 P)) | ].
  exact (proj1 (proj2 (proj2 (proj2 (proj2 (proj2 (proj2 (proj2 (proj2 P))))))))).
Defined.

Lemma navigate_while_unverified_is_locked_witness :
  status (session (exec (processCommand outage "Go home" None) fresh)) = "locked".
Proof.
  assert (H : classify (normalise "Go home")
              = IntentNavigate
                  (Nav.mk ["home"; "dashboard"; "main"; "start"] "/" "Dashboard"))
    by (vm_compute; reflexivity).
  assert (V : isVerified (session fresh) = false) by reflexivity.
  exact (proj1 (proj2 (navigate_while_unverified_is_locked outage "Go home" None
                         fresh _ H V))).
Defined.

Lemma enrollment_needs_three_captures_witness :
  enrollmentInProgressRef (exec (runEnrollment outage "guest") fresh) = false.
Proof.
  assert (G : enrollmentInProgressRef fresh = false) by reflexivity.
  assert (I : In (EvRecordAudio 4000 (Thrown (mkError "Microphone unavailable")))
                (added fresh (exec (runEnrollment outage "guest") fresh)))
    by (vm_compute; left; reflexivity).
  exact (proj1 (proj2 (proj2
           (proj2 (enrollment_needs_three_captures outage "guest" fresh G) _ I)))).
Defined.

Lemma verification_outcome_witness :
  status (session (exec (performVerification (agreeable (Verify.mk true true true)))
                     (enrolled_world ["owner"] false))) = "verified".
Proof.
  assert (I : In (EvVerifyChallenge "session-1" (sample 1500) "home sweet home"
                    (Normal (Verify.mk true true true)))
                (added (enrolled_world ["owner"] false)
                   (exec (performVerification (agreeable (Verify.mk true true true)))
                      (enrolled_world ["owner"] false))))
    by (vm_compute; right; right; left; reflexivity).
  exact (proj1 (proj1 (verification_outcome (agreeable (Verify.mk true true true))
                         (enrolled_world ["owner"] false) _ _ _ _ I))).
Defined.

Lemma live_check_needs_more_than_1000_bytes_witness :
  added (enrolled_world ["owner"] true)
    (exec (processCommand (agreeable (Verify.mk true true true)) "go home"
             (Some (sample 1000)))
       (enrolled_world ["owner"] true))
  = [EvSetTimeout CbIdle 2000; EvSpeak "Dashboard"; EvNavigate "/"].
Proof.
  assert (H : classify (normalise "go home")
              = IntentNavigate
                  (Nav.mk ["home"; "dashboard"; "main"; "start"] "/" "Dashboard"))
    by (vm_compute; reflexivity).
  assert (V : isVerified (session (enrolled_world ["owner"] true)) = true)
    by reflexivity.
  assert (Small : (size (sample 1000) <= 1000)%N) by (vm_compute; discriminate).
  exact (proj1 (proj2 (proj2
           (proj1 (live_check_needs_more_than_1000_bytes
                     (agreeable (Verify.mk true true true)) "go home"
                     (Some (sample 1000)) (enrolled_world ["owner"] true) _ H V)
              Small)))).
Defined.

Lemma outage_during_scan_denies_witness :
  completion (identifyVoice outage (Some (sample 1500)))
    (enrolled_world ["owner"; "guest"] true)
  = Normal (Ident.mk false None 0 (Some "") None).
Proof.
  assert (Out : forall h userId audio,
             match Env.authenticateVoice outage h userId audio with
             | Normal result => Auth.decision result = "NOT_ENROLLED"
             | Thrown _ => True
             end)
    by (intros h userId audio; exact I).
  assert (E : completion getEnrolledOwners (enrolled_world ["owner"; "guest"] true)
              = Normal ["owner"; "guest"]) by reflexivity.
  assert (NE : ["owner"; "guest"] <> []) by discriminate.
  assert (S : (1000 <= size (sample 1500))%N) by (vm_compute; discriminate).
  exact (proj1 (outage_during_scan_denies outage
                  (enrolled_world ["owner"; "guest"] true) (sample 1500)
                  ["owner"; "guest"] Out E NE S)).
Defined.

(* ================================================================== *)
(** ** Further properties of the registry in storage *)
(* ================================================================== *)

(** The world taken apart into its fields. *)
Ltac world w :=
  destruct w as [[pw ow eo] [st sm iv cu] [vas ie eos os] [ien es cep]
                   [spm pmm pv pcv pe pa] g tr].

Lemma getOwners_spec : forall w,
  getOwners w
  = (match synap_owners (storage w) with
     | None => Normal ["owner"]
     | Some (JsonArray l) => Normal l
     | Some (NotJson e) => Thrown e
     end, w).
Proof.
  intros w. unfold getOwners, bind, read, parse_item.
  destruct (synap_owners (storage w)) as [ [ l | e ] | ]; reflexivity.
Qed.

Lemma array_includes_false : forall l name,
  JsString.array_includes l name = false -> ~ In name l.
Proof.
  intros l name H I. unfold JsString.array_includes in H.
  assert (T : existsb (String.eqb name) l = true).
  { apply existsb_exists. exists name. split; [ exact I | apply String.eqb_refl ]. }
  rewrite T in H. discriminate H.
Qed.

Lemma NoDup_snoc : forall (l : list string) x,
  NoDup l -> ~ In x l -> NoDup (l ++ [x]).
Proof.
  intros l x N I. apply NoDup_rev in N.
  rewrite <- (rev_involutive (l ++ [x])). apply NoDup_rev.
  rewrite rev_app_distr. cbv [rev List.app]. fold (rev l).
  constructor; [ | exact N ].
  intros J. apply I. apply in_rev. exact J.
Qed.

(** The names kept by [removeOwner(name)]. *)
Lemma In_filter_other : forall (l : list string) name o,
  In o (filter (fun x => negb (String.eqb x name)) l) <-> In o l /\ o <> name.
Proof.
  intros l name o. rewrite filter_In. split; intros [I H]; split; try exact I.
  - intros E. subst o. rewrite String.eqb_refl in H. discriminate H.
  - destruct (String.eqb_spec o name) as [ E | _ ]; [ contradiction | reflexivity ].
Qed.

Lemma filter_other_snoc : forall (l : list string) name,
  ~ In name l ->
  filter (fun x => negb (String.eqb x name)) (l ++ [name]) = l.
Proof.
  intros l name. induction l as [ | x l IH ]; intros H; simpl.
  - rewrite String.eqb_refl. reflexivity.
  - destruct (String.eqb_spec x name) as [ E | _ ]; simpl.
    + exfalso. apply H. left. exact E.
    + rewrite IH; [ reflexivity | ].
      intros I. apply H. right. exact I.
Qed.

(** X1.  [addOwner(name)] on a readable profile list: afterwards the list
    read from storage is the old one when it had the name (and then the
    world is unchanged), and the old one followed by the name otherwise;
    the name is in it, no name is lost, a list without duplicates stays
    so, and the PIN and the enrolled list are untouched. *)
Theorem addOwner_appends_once : forall name w owners,
  completion getOwners w = Normal owners ->
  completion (addOwner name) w = Normal tt
  /\ (In name owners -> exec (addOwner name) w = w)
  /\ (~ In name owners ->
      completion getOwners (exec (addOwner name) w) = Normal (owners ++ [name])%list)
  /\ (exists owners',
        completion getOwners (exec (addOwner name) w) = Normal owners'
        /\ In name owners'
        /\ (forall o, In o owners -> In o owners')
        /\ (NoDup owners -> NoDup owners'))
  /\ synap_owner_password (storage (exec (addOwner name) w))
     = synap_owner_password (storage w)
  /\ synap_enrolled_owners (storage (exec (addOwner name) w))
     = synap_enrolled_owners (storage w).
Proof.
  intros name w owners H. unfold completion in H. rewrite getOwners_spec in H.
  cbv [fst] in H.
  unfold completion, exec, addOwner, bind. rewrite getOwners_spec, H.
  destruct (JsString.array_includes owners name) eqn:A.
  - apply array_includes_In in A. cbv [negb ret fst snd].
    split; [ reflexivity | ]. split; [ reflexivity | ].
    split; [ intros N; contradiction | ].
    split; [ | split; reflexivity ].
    exists owners. rewrite getOwners_spec, H.
    repeat split; [ exact A | intros o I; exact I | intros N; exact N ].
  - apply array_includes_false in A. cbv [negb].
    split; [ reflexivity | ]. split; [ intros I; contradiction | ].
    split; [ reflexivity | ]. split; [ | split; reflexivity ].
    exists (owners ++ [name])%list.
    split; [ reflexivity | ]. split; [ apply in_or_app; right; left; reflexivity | ].
    split; [ intros o I; apply in_or_app; left; exact I | ].
    intros N. apply NoDup_snoc; assumption.
Qed.

(** X2.  [markOwnerEnrolled(name)] on a readable enrolled list: the list
    read afterwards is the old one when it had the name (the world is then
    unchanged) and the old one followed by the name otherwise; a list
    without duplicates stays so, and the PIN and the profile list are
    untouched. *)
Theorem markOwnerEnrolled_appends_once : forall name w enrolled,
  completion getEnrolledOwners w = Normal enrolled ->
  completion (markOwnerEnrolled name) w = Normal tt
  /\ (In name enrolled -> exec (markOwnerEnrolled name) w = w)
  /\ (~ In name enrolled ->
      completion getEnrolledOwners (exec (markOwnerEnrolled name) w)
      = Normal (enrolled ++ [name])%list)
  /\ (exists enrolled',
        completion getEnrolledOwners (exec (markOwnerEnrolled name) w)
        = Normal enrolled'
        /\ In name enrolled'
        /\ (forall o, In o enrolled -> In o enrolled')
        /\ (NoDup enrolled -> NoDup enrolled'))
  /\ synap_owner_password (storage (exec (markOwnerEnrolled name) w))
     = synap_owner_password (storage w)
  /\ synap_owners (storage (exec (markOwnerEnrolled name) w))
     = synap_owners (storage w).
Proof.
  intros name w enrolled H. unfold completion in H.
  rewrite getEnrolledOwners_spec in H. cbv [fst] in H.
  unfold completion, exec, markOwnerEnrolled, bind.
  rewrite getEnrolledOwners_spec, H.
  destruct (JsString.array_includes enrolled name) eqn:A.
  - apply array_includes_In in A. cbv [negb ret fst snd].
    split; [ reflexivity | ]. split; [ reflexivity | ].
    split; [ intros N; contradiction | ].
    split; [ | split; reflexivity ].
    exists enrolled. rewrite getEnrolledOwners_spec, H.
    repeat split; [ exact A | intros o I; exact I | intros N; exact N ].
  - apply array_includes_false in A. cbv [negb].
    split; [ reflexivity | ]. split; [ intros I; contradiction | ].
    split; [ reflexivity | ]. split; [ | split; reflexivity ].
    exists (enrolled ++ [name])%list.
    split; [ reflexivity | ]. split; [ apply in_or_app; right; left; reflexivity | ].
    split; [ intros o I; apply in_or_app; left; exact I | ].
    intros N. apply NoDup_snoc; assumption.
Qed.

(** X3.  [removeOwner(name)] on readable lists: for the default profile it
    returns [false] and changes nothing; for any other name it returns
    [true] and the profile list and the enrolled list read afterwards hold
    exactly the old names other than [name], in their old order; so the
    default profile is never removed.  The PIN is untouched. *)
Theorem removeOwner_removes_only_that_name : forall name w owners enrolled,
  completion getOwners w = Normal owners ->
  completion getEnrolledOwners w = Normal enrolled ->
  (name = "owner" -> removeOwner name w = (Normal false, w))
  /\ (name <> "owner" ->
      completion (removeOwner name) w = Normal true
      /\ completion getOwners (exec (removeOwner name) w)
         = Normal (filter (fun o => negb (String.eqb o name)) owners)
      /\ completion getEnrolledOwners (exec (removeOwner name) w)
         = Normal (filter (fun o => negb (String.eqb o name)) enrolled)
      /\ (forall o, In o (filter (fun o => negb (String.eqb o name)) owners)
                    <-> In o owners /\ o <> name)
      /\ (forall o, In o (filter (fun o => negb (String.eqb o name)) enrolled)
                    <-> In o enrolled /\ o <> name)
      /\ (In "owner" owners ->
          In "owner" (filter (fun o => negb (String.eqb o name)) owners)))
  /\ synap_owner_password (storage (exec (removeOwner name) w))
     = synap_owner_password (storage w).
Proof.
  intros name w owners enrolled HO HE. unfold completion in HO, HE.
  rewrite getOwners_spec in HO. rewrite getEnrolledOwners_spec in HE.
  cbv [fst] in HO, HE.
  split; [ intros ->; reflexivity | ].
  destruct (String.eqb_spec name "owner") as [ E | NE ].
  - split; [ intros N; contradiction | ].
    unfold exec, removeOwner. subst name. reflexivity.
  - assert (R : removeOwner name w
                = (Normal true,
                   exec (setEnrolledOwners
                           (filter (fun o => negb (String.eqb o name)) enrolled))
                     (exec (setOwners
                              (filter (fun o => negb (String.eqb o name)) owners))
                        w))).
    { unfold removeOwner.
      destruct (String.eqb_spec name "owner") as [ E | _ ]; [ contradiction | ].
      unfold bind at 1. rewrite getOwners_spec, HO.
      unfold bind at 1. unfold setOwners at 1, modify at 1.
      unfold bind at 1. rewrite getEnrolledOwners_spec.
      change (synap_enrolled_owners (storage (with_storage _ w)))
        with (synap_enrolled_owners (storage w)).
      rewrite HE. reflexivity. }
    unfold completion, exec at 1 2 3. rewrite R. cbv [fst snd].
    split; [ | reflexivity ]. intros _.
    split; [ reflexivity | ]. split; [ reflexivity | ]. split; [ reflexivity | ].
    split; [ intros o; apply In_filter_other | ].
    split; [ intros o; apply In_filter_other | ].
    intros I. apply In_filter_other. split; [ exact I | ].
    intros E. apply NE. symmetry. exact E.
Qed.

(** X4.  Adding a new profile and removing it again gives back the profile
    list that was read before. *)
Theorem addOwner_then_removeOwner : forall name w owners enrolled,
  completion getOwners w = Normal owners ->
  completion getEnrolledOwners w = Normal enrolled ->
  ~ In name owners ->
  name <> "owner" ->
  completion (addOwner name ;; removeOwner name) w = Normal true
  /\ completion getOwners (exec (addOwner name ;; removeOwner name) w)
     = Normal owners.
Proof.
  intros name w owners enrolled HO HE NI NE.
  assert (A : JsString.array_includes owners name = false).
  { destruct (JsString.array_includes owners name) eqn:A; [ | reflexivity ].
    exfalso. apply NI. apply array_includes_In. exact A. }
  apply String.eqb_neq in NE.
  unfold completion in HO, HE. rewrite getOwners_spec in HO.
  rewrite getEnrolledOwners_spec in HE. cbv [fst] in HO, HE.
  world w. cbv [storage synap_owners synap_enrolled_owners] in HO, HE.
  destruct ow as [ [ lo | eo' ] | ]; try discriminate HO;
    destruct eo as [ [ le | ee ] | ]; try discriminate HE;
    injection HO as <-; injection HE as <-.
  all: run; rewrite A; run; rewrite NE; run.
  all: split; [ reflexivity | ].
  all: f_equal; apply filter_other_snoc; exact NI.
Qed.

(* ================================================================== *)
(** ** Further properties of the PIN dialog *)
(* ================================================================== *)

(** X5.  [handlePinSubmit] never throws, and it hands the pending action
    to a timer only after accepting the PIN: the entered value is four
    digits, it is the stored PIN afterwards, the dialog is closed, and in
    setup mode the confirmation equals the value while in any other mode
    the value was the stored PIN already.  It sets no other timer. *)
Theorem handlePinSubmit_schedules_only_after_accepting : forall w,
  completion handlePinSubmit w = Normal tt
  /\ (forall cb ms,
        In (EvSetTimeout cb ms) (added w (exec handlePinSubmit w)) ->
        ms = 200%N
        /\ (exists a, cb = CbPending a /\ pendingAction (pin w) = Some a)
        /\ four_digits (pinValue (pin w)) = true
        /\ synap_owner_password (storage (exec handlePinSubmit w))
           = Some (pinValue (pin w))
        /\ showPinModal (pin (exec handlePinSubmit w)) = false
        /\ (pinModalMode (pin w) = "setup" ->
            pinConfirmValue (pin w) = pinValue (pin w))
        /\ (pinModalMode (pin w) <> "setup" ->
            synap_owner_password (storage w) = Some (pinValue (pin w)))).
Proof.
  intros w.
  destruct w as [[pw ow eo] [st sm iv cu] [vas ie eos os] [ien es cep]
                   [spm pmm pv pcv pe pa] g tr].
  run. repeat (break_scrutinee; run).
  all: split; [ reflexivity | ].
  all: intros cb ms; reduce_added; intros I; split_In I.
  all: match goal with H : EvSetTimeout _ _ = EvSetTimeout _ _ |- _ =>
         inversion H; subst; clear H end.
  all: repeat match goal with
       | H : String.eqb _ _ = true |- _ => apply String.eqb_eq in H
       | H : String.eqb _ _ = false |- _ => apply String.eqb_neq in H
       | H : negb _ = true |- _ => apply negb_true_iff in H
       | H : negb _ = false |- _ => apply negb_false_iff in H
       | H : orb _ _ = false |- _ => apply orb_false_iff in H; destruct H
       end.
  all: subst.
  all: split; [ reflexivity | ].
  all: split; [ eexists; split; reflexivity | ].
  all: split; [ reflexivity | ].
  all: split; [ reflexivity | ].
  all: split; [ reflexivity | ].
  all: split; intros M; try reflexivity; try congruence;
       try (exfalso; apply M; reflexivity).
Qed.

(** X6.  A PIN that is not accepted changes nothing but the error text of
    the dialog: a value that is not four digits, a confirmation that
    differs in setup mode, or a value that is not the stored PIN in any
    other mode.  Storage, the open dialog, its pending action and the
    trace stay as they were. *)
Theorem handlePinSubmit_rejection_changes_only_the_error : forall w,
  four_digits (pinValue (pin w)) = false
  \/ (pinModalMode (pin w) = "setup" /\ pinConfirmValue (pin w) <> pinValue (pin w))
  \/ (pinModalMode (pin w) <> "setup"
      /\ synap_owner_password (storage w) <> Some (pinValue (pin w))) ->
  exists text,
    text <> ""
    /\ handlePinSubmit w = (Normal tt, exec (setPinError text) w).
Proof.
  intros w H.
  destruct w as [[pw ow eo] [st sm iv cu] [vas ie eos os] [ien es cep]
                   [spm pmm pv pcv pe pa] g tr].
  cbv [pin pinValue pinModalMode pinConfirmValue storage synap_owner_password] in H.
  run. repeat (break_scrutinee; run).
  all: repeat match goal with
       | H : String.eqb _ _ = true |- _ => apply String.eqb_eq in H
       | H : String.eqb _ _ = false |- _ => apply String.eqb_neq in H
       | H : negb _ = true |- _ => apply negb_true_iff in H
       | H : negb _ = false |- _ => apply negb_false_iff in H
       | H : orb _ _ = false |- _ => apply orb_false_iff in H; destruct H
       end.
  all: subst.
  all: try (eexists; split; [ | reflexivity ]; discriminate).
  all: exfalso; destruct H as [ H | [ [M H] | [M H] ] ];
       try congruence.
Qed.

(** X7.  [startEnrollment] never starts the enrollment itself: it leaves
    storage, the guard, the verified flag and the trace alone.  When the
    backend is not ready it only reports [OFFLINE]; otherwise it opens the
    PIN dialog with empty fields and the enrollment of that profile as the
    pending action, in setup mode when no PIN is stored and in verify mode
    when one is. *)
Theorem startEnrollment_only_opens_the_gate : forall ownerName w,
  completion (startEnrollment ownerName) w = Normal tt
  /\ storage (exec (startEnrollment ownerName) w) = storage w
  /\ enrollmentInProgressRef (exec (startEnrollment ownerName) w)
     = enrollmentInProgressRef w
  /\ trace (exec (startEnrollment ownerName) w) = trace w
  /\ isVerified (session (exec (startEnrollment ownerName) w)) = isVerified (session w)
  /\ (voiceAuthStatus (profiles w) <> "ready" ->
      status (session (exec (startEnrollment ownerName) w)) = "error"
      /\ statusMessage (session (exec (startEnrollment ownerName) w)) = "OFFLINE"
      /\ pin (exec (startEnrollment ownerName) w) = pin w)
  /\ (voiceAuthStatus (profiles w) = "ready" ->
      session (exec (startEnrollment ownerName) w) = session w
      /\ pin (exec (startEnrollment ownerName) w)
         = mkPin true
             (if match synap_owner_password (storage w) with
                 | Some p => JsString.truthy p
                 | None => false
                 end
              then "verify" else "setup")
             "" "" "" (Some (ActRunEnrollment ownerName))).
Proof.
  intros ownerName w.
  destruct w as [[pw ow eo] [st sm iv cu] [vas ie eos os] [ien es cep]
                   [spm pmm pv pcv pe pa] g tr].
  run. repeat (break_scrutinee; run).
  all: repeat match goal with
       | H : String.eqb _ _ = true |- _ => apply String.eqb_eq in H
       | H : String.eqb _ _ = false |- _ => apply String.eqb_neq in H
       end.
  all: subst.
  all: repeat (split; [ reflexivity | ]).
  all: split; intros M; try congruence; repeat split; reflexivity.
Qed.

(** X8.  The gate end to end, when no PIN is stored and the backend is
    ready: [startEnrollment], the same four digits typed in both fields
    (other characters are dropped by the fields) and [handlePinSubmit]
    store these digits as the PIN, close the dialog and hand
    [runEnrollment] of that profile to a 200 ms timer, as the only event;
    firing the timer is that run. *)
Theorem first_enrollment_sets_the_pin : forall ownerName typed w,
  voiceAuthStatus (profiles w) = "ready" ->
  synap_owner_password (storage w) = None ->
  four_digits (digits_only typed) = true ->
  completion (startEnrollment ownerName ;; pin_change typed ;;
              pin_confirm_change typed ;; handlePinSubmit) w = Normal tt
  /\ synap_owner_password
       (storage (exec (startEnrollment ownerName ;; pin_change typed ;;
                       pin_confirm_change typed ;; handlePinSubmit) w))
     = Some (digits_only typed)
  /\ showPinModal
       (pin (exec (startEnrollment ownerName ;; pin_change typed ;;
                   pin_confirm_change typed ;; handlePinSubmit) w)) = false
  /\ added w (exec (startEnrollment ownerName ;; pin_change typed ;;
                    pin_confirm_change typed ;; handlePinSubmit) w)
     = [EvSetTimeout (CbPending (ActRunEnrollment ownerName)) 200]
  /\ (forall env w', fire env (CbPending (ActRunEnrollment ownerName)) w'
                     = (Normal tt, exec (runEnrollment env ownerName) w')).
Proof.
  intros ownerName typed w R P D.
  destruct w as [[pw ow eo] [st sm iv cu] [vas ie eos os] [ien es cep]
                   [spm pmm pv pcv pe pa] g tr].
  cbv [profiles voiceAuthStatus storage synap_owner_password] in R, P. subst vas pw.
  assert (L : (String.length (digits_only typed) =? 4)%nat = true).
  { unfold four_digits in D. apply andb_true_iff in D. exact (proj1 D). }
  assert (E : (startEnrollment ownerName ;; pin_change typed ;;
               pin_confirm_change typed ;; handlePinSubmit)
                (mkWorld (mkStorage None ow eo) (mkSession st sm iv cu)
                   (mkProfiles "ready" ie eos os) (mkRun ien es cep)
                   (mkPin spm pmm pv pcv pe pa) g tr)
              = (Normal tt,
                 mkWorld (mkStorage (Some (digits_only typed)) ow eo)
                   (mkSession st sm iv cu)
                   (mkProfiles "ready" ie eos os) (mkRun ien es cep)
                   (mkPin false "setup" (digits_only typed) (digits_only typed) ""
                      (Some (ActRunEnrollment ownerName)))
                   g
                   (EvSetTimeout (CbPending (ActRunEnrollment ownerName)) 200 :: tr))).
  { cbv -[String.eqb String.length Nat.eqb four_digits digits_only].
    rewrite L, D. rewrite !String.eqb_refl. reflexivity. }
  unfold completion, exec. rewrite E. cbv [fst snd].
  split; [ reflexivity | ]. split; [ reflexivity | ]. split; [ reflexivity | ].
  split; [ apply added_app; reflexivity | intros env w'; reflexivity ].
Qed.

(* ================================================================== *)
(** ** Further properties of [identifyVoice] *)
(* ================================================================== *)

Section Identification.

Variable env : Env.t.

(** X9.  When the stored enrolled list is read as an array of names,
    [identifyVoice] returns an answer, whatever the backend does: no
    failure of [authenticateVoice] leaves the function.  When
    [JSON.parse] rejects the stored text, [identifyVoice] throws that
    error and has called nothing. *)
Theorem identifyVoice_contains_backend_failures : forall audioBlob w,
  (forall enrolled,
      completion getEnrolledOwners w = Normal enrolled ->
      exists voiceCheck,
        completion (identifyVoice env audioBlob) w = Normal voiceCheck)
  /\ (forall e,
        completion getEnrolledOwners w = Thrown e ->
        identifyVoice env audioBlob w = (Thrown e, w)).
Proof.
  intros audioBlob w. split.
  - intros enrolled E. unfold completion in E.
    rewrite getEnrolledOwners_spec in E. cbv [fst] in E.
    unfold completion, identifyVoice, bind.
    rewrite getEnrolledOwners_spec, E.
    destruct (List.length enrolled =? 0)%nat; [ eexists; reflexivity | ].
    destruct audioBlob as [ blob | ]; [ | eexists; reflexivity ].
    destruct (size blob <? 1000)%N; [ eexists; reflexivity | ].
    destruct (scan_effect env blob enrolled (Best.mk None 0 false "") w)
      as (_ & _ & (best & C) & _).
    unfold completion in C.
    destruct (scan env blob enrolled (Best.mk None 0 false "") w) as [c w2].
    cbv [fst] in C. subst c. eexists. reflexivity.
  - intros e E. unfold completion in E.
    rewrite getEnrolledOwners_spec in E. cbv [fst] in E.
    unfold identifyVoice, bind. rewrite getEnrolledOwners_spec, E. reflexivity.
Qed.

(** The scan calls [authenticateVoice] for each profile in turn, whatever
    the answers. *)
Lemma scan_calls_each_profile : forall audioBlob enrolled bestMatch acc w,
  exists answers,
    List.length answers = List.length enrolled
    /\ exec (scan env audioBlob enrolled bestMatch) (extend acc w)
       = extend (scan_calls audioBlob enrolled answers ++ acc) w.
Proof.
  intros audioBlob enrolled. induction enrolled as [ | owner rest IH ];
    intros bestMatch acc w.
  - exists []. split; reflexivity.
  - unfold exec. rewrite scan_cons.
    set (answer := Env.authenticateVoice env (trace (extend acc w))
                     (getUserId owner) audioBlob).
    match goal with |- context [scan env audioBlob rest ?b _] =>
      destruct (IH b (EvAuthenticate (getUserId owner) audioBlob answer :: acc) w)
        as (answers & L & E) end.
    exists (answer :: answers). split; [ simpl; rewrite L; reflexivity | ].
    unfold exec in E.
    change (log (EvAuthenticate (getUserId owner) audioBlob answer) (extend acc w))
      with (extend (EvAuthenticate (getUserId owner) audioBlob answer :: acc) w).
    rewrite E. f_equal. unfold scan_calls. simpl.
    rewrite <- app_assoc. reflexivity.
Qed.

(** X10.  With profiles enrolled and a sample of at least 1000 bytes,
    [identifyVoice] calls [authenticateVoice] exactly once for each
    enrolled profile, in the order of the list, with the user id
    [voice_<name>] and that sample; a call that fails does not stop the
    scan.  It does nothing else to the world. *)
Theorem identifyVoice_calls_each_enrolled_profile_once : forall blob enrolled w,
  completion getEnrolledOwners w = Normal enrolled ->
  enrolled <> [] ->
  (1000 <= size blob)%N ->
  exists answers,
    List.length answers = List.length enrolled
    /\ exec (identifyVoice env (Some blob)) w
       = extend (scan_calls blob enrolled answers) w
    /\ added w (exec (identifyVoice env (Some blob)) w)
       = scan_calls blob enrolled answers.
Proof.
  intros blob enrolled w E NE S.
  destruct (scan_calls_each_profile blob enrolled (Best.mk None 0 false "") [] w)
    as (answers & L & X).
  exists answers. split; [ exact L | ].
  rewrite app_nil_r in X. change (extend [] w) with w in X.
  assert (Y : exec (identifyVoice env (Some blob)) w
              = extend (scan_calls blob enrolled answers) w).
  { unfold exec in *. rewrite (identifyVoice_scans env blob enrolled w E NE S).
    unfold bind.
    destruct (scan env blob enrolled (Best.mk None 0 false "") w) as [[best | e] w2];
      cbv [snd] in *; exact X. }
  split; [ exact Y | ].
  apply added_app. rewrite Y. apply trace_extend.
Qed.

(** What [consider] does to the best match. *)
Lemma consider_cases : forall owner result bestMatch,
  (consider owner result bestMatch
   = Best.mk (Some owner) (Auth.confidence result) (Auth.authenticated result)
       (Auth.decision result)
   /\ ~ (Auth.confidence result <= Best.score bestMatch)%Q
   /\ (Auth.authenticated result = false -> Best.authenticated bestMatch = false))
  \/ (consider owner result bestMatch = bestMatch
      /\ ((Auth.confidence result <= Best.score bestMatch)%Q
          \/ (Auth.authenticated result = false
              /\ Best.authenticated bestMatch = true))).
Proof.
  intros owner [ra rc rd] [bu bs ba bd]. unfold consider, Qgtb.
  cbv [Auth.authenticated Auth.confidence Auth.decision Best.score
       Best.authenticated].
  destruct (Qle_bool rc bs) eqn:Q.
  - right. apply Qle_bool_iff in Q. rewrite !andb_false_r.
    split; [ reflexivity | left; exact Q ].
  - assert (N : ~ (rc <= bs)%Q).
    { intros H. apply Qle_bool_iff in H. rewrite H in Q. discriminate Q. }
    destruct ra, ba; cbv [negb andb].
    + left. repeat split; try exact N. intros H. discriminate H.
    + left. repeat split; try exact N.
    + right. split; [ reflexivity | right; split; reflexivity ].
    + left. repeat split; exact N.
Qed.

(** The invariant of the scan behind X11: an authenticated best match is
    the answer of a call made for an enrolled profile. *)
Lemma scan_authenticated_is_backed : forall audioBlob names rest bestMatch acc w,
  (forall o, In o rest -> In o names) ->
  (Best.authenticated bestMatch = true ->
   exists owner result,
     In owner names /\ Best.user bestMatch = Some owner
     /\ Best.score bestMatch = Auth.confidence result
     /\ Auth.authenticated result = true
     /\ In (EvAuthenticate (getUserId owner) audioBlob (Normal result)) acc) ->
  exists evs,
    exec (scan env audioBlob rest bestMatch) (extend acc w) = extend (evs ++ acc) w
    /\ forall best,
         completion (scan env audioBlob rest bestMatch) (extend acc w) = Normal best ->
         Best.authenticated best = true ->
         exists owner result,
           In owner names /\ Best.user best = Some owner
           /\ Best.score best = Auth.confidence result
           /\ Auth.authenticated result = true
           /\ In (EvAuthenticate (getUserId owner) audioBlob (Normal result))
                (evs ++ acc).
Proof.
  intros audioBlob names rest. induction rest as [ | o rest IH ];
    intros bestMatch acc w Sub Inv.
  - exists []. split; [ reflexivity | ]. intros best C A.
    cbv [completion scan ret fst] in C. injection C as <-. exact (Inv A).
  - unfold exec, completion. rewrite scan_cons.
    set (answer := Env.authenticateVoice env (trace (extend acc w))
                     (getUserId o) audioBlob) in *.
    change (log (EvAuthenticate (getUserId o) audioBlob answer) (extend acc w))
      with (extend (EvAuthenticate (getUserId o) audioBlob answer :: acc) w).
    match goal with |- context [scan env audioBlob rest ?b _] =>
      destruct (IH b (EvAuthenticate (getUserId o) audioBlob answer :: acc) w
                  (fun x I => Sub x (or_intror I)))
        as (evs & X & B) end.
    + destruct answer as [ r | e ] eqn:Ans.
      * destruct (String.eqb (Auth.decision r) "NOT_ENROLLED").
        -- intros A0. destruct (Inv A0) as (ow & re & I1 & I2 & I3 & I4 & I5).
           exists ow, re. repeat split; try assumption. right. exact I5.
        -- destruct (consider_cases o r bestMatch) as [ (Eq & _ & _) | (Eq & _) ];
             rewrite Eq.
           ++ cbv [Best.authenticated Best.user Best.score]. intros A0.
              exists o, r. repeat split; try assumption.
              ** apply Sub. left. reflexivity.
              ** left. reflexivity.
           ++ intros A0. destruct (Inv A0) as (ow & re & I1 & I2 & I3 & I4 & I5).
              exists ow, re. repeat split; try assumption. right. exact I5.
      * intros A0. destruct (Inv A0) as (ow & re & I1 & I2 & I3 & I4 & I5).
        exists ow, re. repeat split; try assumption. right. exact I5.
    + exists (evs ++ [EvAuthenticate (getUserId o) audioBlob answer])%list.
      rewrite <- app_assoc. split; [ exact X | exact B ].
Qed.

(** X11.  With profiles enrolled, [identifyVoice] reports
    [identified = true] only when, in this very scan, [authenticateVoice]
    returned [authenticated = true] for an enrolled profile; the reported
    user is that profile and the reported score is the confidence of that
    answer. *)
Theorem identified_means_backend_authenticated : forall audioBlob enrolled w result,
  completion getEnrolledOwners w = Normal enrolled ->
  enrolled <> [] ->
  completion (identifyVoice env audioBlob) w = Normal result ->
  Ident.identified result = true ->
  exists blob owner answer,
    audioBlob = Some blob
    /\ (1000 <= size blob)%N
    /\ In owner enrolled
    /\ Ident.user result = Some owner
    /\ Ident.score result = Auth.confidence answer
    /\ Auth.authenticated answer = true
    /\ In (EvAuthenticate (getUserId owner) blob (Normal answer))
         (added w (exec (identifyVoice env audioBlob) w)).
Proof.
  intros audioBlob enrolled w result E NE C I.
  assert (Small : forall a, (forall b, a = Some b -> (size b < 1000)%N) ->
            completion (identifyVoice env a) w = Normal no_audio).
  { intros a H. unfold completion in *. rewrite getEnrolledOwners_spec in E.
    cbv [fst] in E. unfold identifyVoice, bind. rewrite getEnrolledOwners_spec, E.
    destruct enrolled as [ | o r ]; [ contradiction | ].
    cbv [List.length Nat.eqb]. destruct a as [ b | ]; [ | reflexivity ].
    specialize (H b eq_refl). apply N.ltb_lt in H. rewrite H. reflexivity. }
  destruct audioBlob as [ blob | ].
  2: { rewrite Small in C by (intros b H; discriminate H).
       injection C as <-. discriminate I. }
  destruct (N.ltb_spec (size blob) 1000) as [ Lt | Ge ].
  { rewrite Small in C by (intros b H; injection H as <-; exact Lt).
    injection C as <-. discriminate I. }
  unfold completion in C. unfold exec.
  rewrite (identifyVoice_scans env blob enrolled w E NE Ge) in *.
  unfold bind in *.
  destruct (scan_authenticated_is_backed blob enrolled enrolled
              (Best.mk None 0 false "") [] w (fun o H => H)
              (fun H => False_ind _ (Bool.diff_false_true H)))
    as (evs & X & B).
  change (extend [] w) with w in X, B. unfold exec in X. unfold completion in B.
  rewrite app_nil_r in X, B.
  destruct (scan env blob enrolled (Best.mk None 0 false "") w) as [[best | e] w2];
    cbv [fst snd ret] in *; [ | discriminate C ].
  injection C as <-. cbv [Ident.identified] in I.
  destruct (B best eq_refl I) as (owner & answer & H1 & H2 & H3 & H4 & H5).
  exists blob, owner, answer. repeat split; try assumption.
  rewrite (added_app w w2 evs); [ exact H5 | ].
  rewrite X. apply trace_extend.
Qed.

(** The invariant of the scan behind X12. *)
Lemma scan_score_bounds : forall audioBlob rest bestMatch acc w,
  (0 <= Best.score bestMatch)%Q ->
  (forall userId answer,
      In (EvAuthenticate userId audioBlob (Normal answer)) acc ->
      Auth.decision answer <> "NOT_ENROLLED" ->
      Auth.authenticated answer = true \/ Best.authenticated bestMatch = false ->
      (Auth.confidence answer <= Best.score bestMatch)%Q) ->
  exists evs,
    exec (scan env audioBlob rest bestMatch) (extend acc w) = extend (evs ++ acc) w
    /\ forall best,
         completion (scan env audioBlob rest bestMatch) (extend acc w) = Normal best ->
         (0 <= Best.score best)%Q
         /\ forall userId answer,
              In (EvAuthenticate userId audioBlob (Normal answer)) (evs ++ acc) ->
              Auth.decision answer <> "NOT_ENROLLED" ->
              Auth.authenticated answer = true \/ Best.authenticated best = false ->
              (Auth.confidence answer <= Best.score best)%Q.
Proof.
  intros audioBlob rest. induction rest as [ | o rest IH ];
    intros bestMatch acc w Pos Inv.
  - exists []. split; [ reflexivity | ]. intros best C.
    cbv [completion scan ret fst] in C. injection C as <-.
    split; [ exact Pos | exact Inv ].
  - unfold exec, completion. rewrite scan_cons.
    set (answer := Env.authenticateVoice env (trace (extend acc w))
                     (getUserId o) audioBlob) in *.
    change (log (EvAuthenticate (getUserId o) audioBlob answer) (extend acc w))
      with (extend (EvAuthenticate (getUserId o) audioBlob answer :: acc) w).
    match goal with |- context [scan env audioBlob rest ?b _] =>
      destruct (IH b (EvAuthenticate (getUserId o) audioBlob answer :: acc) w)
        as (evs & X & B) end.
    + destruct answer as [ r | e ]; [ | exact Pos ].
      destruct (String.eqb (Auth.decision r) "NOT_ENROLLED"); [ exact Pos | ].
      destruct (consider_cases o r bestMatch) as [ (Eq & N & _) | (Eq & _) ];
        rewrite Eq; [ | exact Pos ].
      cbv [Best.score]. apply Qnot_le_lt in N. apply Qlt_le_weak.
      apply (Qle_lt_trans _ _ _ Pos N).
    + intros userId a [ Here | Old ] Cand Who.
      * injection Here as <- Ans. destruct answer as [ r | e ]; [ | discriminate Ans ].
        injection Ans as ->.
        destruct (String.eqb_spec (Auth.decision a) "NOT_ENROLLED") as [ Q | _ ];
          [ contradiction | ].
        destruct (consider_cases o a bestMatch)
          as [ (Eq & _ & _) | (Eq & [ Le | (F & T) ]) ]; rewrite Eq in *.
        -- cbv [Best.score]. apply Qle_refl.
        -- exact Le.
        -- destruct Who as [ Y | Y ]; congruence.
      * destruct answer as [ r | e ]; [ | exact (Inv userId a Old Cand Who) ].
        destruct (String.eqb (Auth.decision r) "NOT_ENROLLED");
          [ exact (Inv userId a Old Cand Who) | ].
        destruct (consider_cases o r bestMatch)
          as [ (Eq & N & K) | (Eq & _) ]; rewrite Eq in *;
          [ | exact (Inv userId a Old Cand Who) ].
        cbv [Best.score Best.authenticated] in *.
        apply Qnot_le_lt in N. apply Qlt_le_weak.
        apply (Qle_lt_trans _ (Best.score bestMatch)); [ | exact N ].
        apply (Inv userId a Old Cand).
        destruct Who as [ Y | Y ]; [ left; exact Y | right; exact (K Y) ].
    + exists (evs ++ [EvAuthenticate (getUserId o) audioBlob answer])%list.
      rewrite <- app_assoc. split; [ exact X | exact B ].
Qed.

(** X12.  The score that [identifyVoice] reports after a scan is not
    negative and not below the confidence of any authenticated answer of
    the scan for a profile with a voiceprint; and when it reports
    [identified = false], the score is not below the confidence of any
    answer for a profile with a voiceprint: a denial reports the highest
    confidence that was seen. *)
Theorem reported_score_bounds_the_answers : forall blob enrolled w result,
  completion getEnrolledOwners w = Normal enrolled ->
  enrolled <> [] ->
  (1000 <= size blob)%N ->
  completion (identifyVoice env (Some blob)) w = Normal result ->
  (0 <= Ident.score result)%Q
  /\ forall userId answer,
       In (EvAuthenticate userId blob (Normal answer))
          (added w (exec (identifyVoice env (Some blob)) w)) ->
       Auth.decision answer <> "NOT_ENROLLED" ->
       Auth.authenticated answer = true \/ Ident.identified result = false ->
       (Auth.confidence answer <= Ident.score result)%Q.
Proof.
  intros blob enrolled w result E NE Ge C.
  unfold completion in C. unfold exec.
  rewrite (identifyVoice_scans env blob enrolled w E NE Ge) in *.
  unfold bind in *.
  destruct (scan_score_bounds blob enrolled (Best.mk None 0 false "") [] w)
    as (evs & X & B).
  { apply Qle_refl. } { intros userId answer []. }
  change (extend [] w) with w in X, B. unfold exec in X. unfold completion in B.
  rewrite app_nil_r in X, B.
  destruct (scan env blob enrolled (Best.mk None 0 false "") w) as [[best | e] w2];
    cbv [fst snd ret] in *; [ | discriminate C ].
  injection C as <-. cbv [Ident.identified Ident.score].
  destruct (B best eq_refl) as (P & Q). split; [ exact P | ].
  rewrite (added_app w w2 evs); [ exact Q | ].
  rewrite X. apply trace_extend.
Qed.

End Identification.

(* ================================================================== *)
(** ** Further properties of [performVerification] *)
(* ================================================================== *)

Lemma truthy_false : forall s, JsString.truthy s = false -> s = "".
Proof. intros [ | c s ] H; [ reflexivity | discriminate H ]. Qed.

Lemma truthy_true : forall s, JsString.truthy s = true -> s <> "".
Proof. intros s H E. subst s. discriminate H. Qed.

Section Verification.

Variable env : Env.t.

(** X13.  [performVerification] never throws, and it turns an unverified
    session into a verified one only when a voiceprint exists and the
    backend answered the verify call of this run with [success],
    [speakerMatch] and [phraseMatch] all true. *)
Theorem verified_only_by_the_backend : forall w,
  completion (performVerification env) w = Normal tt
  /\ (isVerified (session w) = false ->
      isVerified (session (exec (performVerification env) w)) = true ->
      isEnrolled (profiles w) = true
      /\ exists sessionId audio spokenText,
           In (EvVerifyChallenge sessionId audio spokenText
                 (Normal (Verify.mk true true true)))
              (added w (exec (performVerification env) w))).
Proof.
  intros w. world w.
  run. repeat (break_scrutinee; run).
  all: split; [ reflexivity | ].
  all: intros V V'; try congruence.
  all: split; [ reflexivity | ].
  all: reduce_added.
  all: do 3 eexists; right; right; left; reflexivity.
Qed.

(** The verify call of a run and the calls before it. *)
Lemma verify_call_origin : forall w sessionId audio spokenText res,
  In (EvVerifyChallenge sessionId audio spokenText res)
     (added w (exec (performVerification env) w)) ->
  exists challenge,
    In (EvStartChallenge (getUserId (first_or_owner (enrolledOwners (profiles w))))
          (Normal challenge))
       (added w (exec (performVerification env) w))
    /\ Challenge.success challenge = true
    /\ sessionId = Challenge.sessionId challenge
    /\ In (EvRecordAudio 5000 (Normal (Some audio)))
         (added w (exec (performVerification env) w))
    /\ (size audio <? 1000)%N = false
    /\ ((spokenText = Challenge.phrase challenge
         /\ forall heard,
              In (EvRecognition heard) (added w (exec (performVerification env) w)) ->
              heard = "")
        \/ (spokenText <> ""
            /\ In (EvRecognition spokenText)
                 (added w (exec (performVerification env) w)))).
Proof.
  intros w sessionId audio spokenText res. world w.
  run. repeat (break_scrutinee; run).
  all: reduce_added.
  all: intros I; split_In I.
  all: match goal with H : EvVerifyChallenge _ _ _ _ = EvVerifyChallenge _ _ _ _ |- _ =>
         inversion H; subst; clear H end.
  all: eexists; split; [ cbv [In]; repeat (first [ left; reflexivity | right ]) | ].
  all: split; [ cbv [Challenge.success]; congruence | ].
  all: split; [ reflexivity | ].
  all: split; [ cbv [In]; repeat (first [ left; reflexivity | right ]) | ].
  all: split; [ assumption | ].
  all: try (match goal with H : JsString.truthy "" = true |- _ =>
              discriminate H end).
  all: first
    [ left; split; [ reflexivity | ];
      intros heard J; split_In J;
      match goal with H : EvRecognition _ = EvRecognition _ |- _ =>
        injection H as <- end;
      apply truthy_false; assumption
    | right; split;
      [ apply truthy_true; assumption
      | cbv [In]; repeat (first [ left; reflexivity | right ]) ] ].
Qed.

(** X14.  What [performVerification] sends to the verify call: the session
    id of the challenge that the backend issued in this run for the target
    profile, the audio recorded in this run, which has at least 1000 bytes,
    and as spoken text the transcript that was heard if there is one and
    the phrase of the challenge otherwise. *)
Theorem verify_call_uses_this_challenge : forall w sessionId audio spokenText res,
  In (EvVerifyChallenge sessionId audio spokenText res)
     (added w (exec (performVerification env) w)) ->
  exists challenge,
    In (EvStartChallenge (getUserId (first_or_owner (enrolledOwners (profiles w))))
          (Normal challenge))
       (added w (exec (performVerification env) w))
    /\ Challenge.success challenge = true
    /\ sessionId = Challenge.sessionId challenge
    /\ In (EvRecordAudio 5000 (Normal (Some audio)))
         (added w (exec (performVerification env) w))
    /\ (1000 <= size audio)%N
    /\ ((spokenText = Challenge.phrase challenge
         /\ forall heard,
              In (EvRecognition heard) (added w (exec (performVerification env) w)) ->
              heard = "")
        \/ (spokenText <> ""
            /\ In (EvRecognition spokenText)
                 (added w (exec (performVerification env) w)))).
Proof.
  intros w sessionId audio spokenText res I.
  destruct (verify_call_origin w sessionId audio spokenText res I)
    as (challenge & H1 & H2 & H3 & H4 & H5 & H6).
  exists challenge. apply N.ltb_ge in H5.
  repeat (split; [ assumption | ]). exact H6.
Qed.

(** X15.  When the recording of the response yields nothing or less than
    1000 bytes, [performVerification] stops before the verify call: the
    status is [error] with "NO AUDIO DETECTED", the verified flag and the
    current user keep their values, and the run sets no timer, so nothing
    clears this status afterwards. *)
Theorem no_audio_stops_before_the_verify_call : forall w recorded,
  In (EvRecordAudio 5000 (Normal recorded))
     (added w (exec (performVerification env) w)) ->
  match recorded with
  | Some blob => (size blob <? 1000)%N = true
  | None => True
  end ->
  status (session (exec (performVerification env) w)) = "error"
  /\ statusMessage (session (exec (performVerification env) w)) = "NO AUDIO DETECTED"
  /\ isVerified (session (exec (performVerification env) w)) = isVerified (session w)
  /\ currentUser (session (exec (performVerification env) w))
     = currentUser (session w)
  /\ (forall sessionId audio spokenText res,
        ~ In (EvVerifyChallenge sessionId audio spokenText res)
            (added w (exec (performVerification env) w)))
  /\ (forall cb ms,
        ~ In (EvSetTimeout cb ms) (added w (exec (performVerification env) w))).
Proof.
  intros w recorded. world w.
  run. repeat (break_scrutinee; run).
  all: reduce_added.
  all: intros I; split_In I.
  all: match goal with H : EvRecordAudio _ _ = EvRecordAudio _ _ |- _ =>
         inversion H; subst; clear H end.
  all: intros Small; try congruence.
  all: repeat (split; [ reflexivity | ]).
  all: split; [ intros ? ? ? ? J | intros ? ? J ]; split_In J.
Qed.

(** X16.  A challenge that cannot be started ends the run before any
    recording: when [startChallenge] throws or answers without [success],
    the status is [error] with the message of the failure, nothing is
    recorded, no verify call is made and the verified flag is unchanged. *)
Theorem failed_challenge_records_nothing : forall w userId res,
  In (EvStartChallenge userId res) (added w (exec (performVerification env) w)) ->
  match res with
  | Normal challenge => Challenge.success challenge = false
  | Thrown _ => True
  end ->
  status (session (exec (performVerification env) w)) = "error"
  /\ statusMessage (session (exec (performVerification env) w))
     = match res with
       | Normal challenge => Challenge.message challenge
       | Thrown e => message e
       end
  /\ isVerified (session (exec (performVerification env) w)) = isVerified (session w)
  /\ (forall ms recorded,
        ~ In (EvRecordAudio ms recorded) (added w (exec (performVerification env) w)))
  /\ (forall sessionId audio spokenText res',
        ~ In (EvVerifyChallenge sessionId audio spokenText res')
            (added w (exec (performVerification env) w))).
Proof.
  intros w userId res. world w.
  run. repeat (break_scrutinee; run).
  all: reduce_added.
  all: intros I; split_In I.
  all: match goal with H : EvStartChallenge _ _ = EvStartChallenge _ _ |- _ =>
         inversion H; subst; clear H end.
  all: cbv [Challenge.success Challenge.message message].
  all: intros Failed; try congruence.
  all: repeat (split; [ reflexivity | ]).
  all: split; [ intros ? ? J | intros ? ? ? ? J ]; split_In J.
Qed.

(** X17.  The timer of [performVerification].  A run sets at most the one
    timer of 3000 ms whose callback tests the status that the session had
    when the run was invoked.  So when that status was not [verified],
    firing the timer puts the status back to [idle] with an empty message,
    also after a verification that has just succeeded; when it was
    [verified], firing the timer changes nothing.  The verified flag is
    not touched by the timer in either case. *)
Theorem verification_timer_tests_the_old_status : forall w cb ms,
  In (EvSetTimeout cb ms) (added w (exec (performVerification env) w)) ->
  cb = CbIdleUnlessVerified (status (session w))
  /\ ms = 3000%N
  /\ (status (session w) <> "verified" ->
      status (session (exec (fire env cb) (exec (performVerification env) w))) = "idle"
      /\ statusMessage (session (exec (fire env cb) (exec (performVerification env) w)))
         = ""
      /\ isVerified (session (exec (fire env cb) (exec (performVerification env) w)))
         = isVerified (session (exec (performVerification env) w)))
  /\ (status (session w) = "verified" ->
      exec (fire env cb) (exec (performVerification env) w)
      = exec (performVerification env) w).
Proof.
  intros w cb ms. world w.
  run. repeat (break_scrutinee; run).
  all: reduce_added.
  all: intros I; split_In I.
  all: match goal with H : EvSetTimeout _ _ = EvSetTimeout _ _ |- _ =>
         inversion H; subst; clear H end.
  all: split; [ reflexivity | ]; split; [ reflexivity | ].
  all: repeat match goal with
       | H : String.eqb _ _ = true |- _ => apply String.eqb_eq in H
       | H : String.eqb _ _ = false |- _ => apply String.eqb_neq in H
       end.
  all: split; intros M; try congruence; repeat split; reflexivity.
Qed.

End Verification.

(* ================================================================== *)
(** ** Further properties of [runEnrollment] *)
(* ================================================================== *)

Section Enrollment.

Variable env : Env.t.

(** X18.  A run of [runEnrollment] that starts never throws and always
    ends with the guard released and [isEnrolling] false, whatever the
    recorder and the backend do; it leaves the PIN, the stored profile
    list, the PIN dialog, the verified flag and the current user alone. *)
Theorem runEnrollment_always_releases_the_guard : forall ownerName w,
  enrollmentInProgressRef w = false ->
  completion (runEnrollment env ownerName) w = Normal tt
  /\ enrollmentInProgressRef (exec (runEnrollment env ownerName) w) = false
  /\ isEnrolling (run (exec (runEnrollment env ownerName) w)) = false
  /\ synap_owner_password (storage (exec (runEnrollment env ownerName) w))
     = synap_owner_password (storage w)
  /\ synap_owners (storage (exec (runEnrollment env ownerName) w))
     = synap_owners (storage w)
  /\ pin (exec (runEnrollment env ownerName) w) = pin w
  /\ isVerified (session (exec (runEnrollment env ownerName) w))
     = isVerified (session w)
  /\ currentUser (session (exec (runEnrollment env ownerName) w))
     = currentUser (session w).
Proof.
  intros ownerName w G. world w.
  cbv [enrollmentInProgressRef] in G. subst g.
  run. repeat (break_scrutinee; run).
  all: repeat split; reflexivity.
Qed.

(** X19.  The enrolled list changes only when the run succeeds.  A run
    that does not end in the status [success] (a failed recording, a
    backend that refuses or fails, an unreadable stored list) leaves
    storage and the profile state exactly as they were; a run that ends in
    [success] leaves a readable enrolled list that the React state
    mirrors, with [isEnrolled] set. *)
Theorem enrollment_changes_the_registry_only_on_success : forall ownerName w,
  enrollmentInProgressRef w = false ->
  (status (session (exec (runEnrollment env ownerName) w)) <> "success" ->
   storage (exec (runEnrollment env ownerName) w) = storage w
   /\ profiles (exec (runEnrollment env ownerName) w) = profiles w)
  /\ (status (session (exec (runEnrollment env ownerName) w)) = "success" ->
      completion getEnrolledOwners (exec (runEnrollment env ownerName) w)
      = Normal (enrolledOwners (profiles (exec (runEnrollment env ownerName) w)))
      /\ isEnrolled (profiles (exec (runEnrollment env ownerName) w)) = true
      /\ owners (profiles (exec (runEnrollment env ownerName) w))
         = owners (profiles w)).
Proof.
  intros ownerName w G. world w.
  cbv [enrollmentInProgressRef] in G. subst g.
  run. repeat (break_scrutinee; run).
  all: split; intros S; try (exfalso; apply S; reflexivity);
       try discriminate S; repeat split; reflexivity.
Qed.

(** X20.  The timer of [runEnrollment]: the run sets a timer exactly when
    it got as far as calling [enrollUser], and then it is the 3000 ms
    timer that clears the status.  After a failed recording no timer is
    set, so the [error] status of that failure is not cleared by the run. *)
Theorem enrollment_timer_only_after_the_backend_call : forall ownerName w cb ms,
  enrollmentInProgressRef w = false ->
  In (EvSetTimeout cb ms) (added w (exec (runEnrollment env ownerName) w))
  <-> cb = CbIdle /\ ms = 3000%N
      /\ exists samples res,
           In (EvEnroll (getUserId ownerName) samples true res)
              (added w (exec (runEnrollment env ownerName) w)).
Proof.
  intros ownerName w cb ms G. world w.
  cbv [enrollmentInProgressRef] in G. subst g.
  run. repeat (break_scrutinee; run).
  all: reduce_added.
  all: split.
  all: lazymatch goal with
       | |- In _ _ -> _ => intros I; split_In I
       | |- _ => intros (-> & -> & samples & res & I); split_In I
       end.
  all: try (match goal with H : EvSetTimeout _ _ = EvSetTimeout _ _ |- _ =>
              inversion H; subst; clear H end;
            split; [ reflexivity | split; [ reflexivity | ] ];
            do 2 eexists).
  all: cbv [In]; repeat (first [ left; reflexivity | right ]).
Qed.

End Enrollment.

(* ================================================================== *)
(** ** Further properties of [processCommand] *)
(* ================================================================== *)

Section Dispatcher.

Variable env : Env.t.

(** The enroll command only adds the profile and opens the PIN dialog. *)
Lemma enroll_command_effect : forall t w,
  trace (exec (enroll_command t) w) = trace w
  /\ isVerified (session (exec (enroll_command t) w)) = isVerified (session w)
  /\ currentUser (session (exec (enroll_command t) w)) = currentUser (session w).
Proof.
  intros t w. world w.
  run. repeat (break_scrutinee; run).
  all: repeat split; reflexivity.
Qed.

(** [performVerification] does not call the router. *)
Lemma performVerification_no_navigation : forall w route,
  ~ In (EvNavigate route) (added w (exec (performVerification env) w)).
Proof.
  intros w route. world w.
  run. repeat (break_scrutinee; run).
  all: reduce_added.
  all: intros I; split_In I.
Qed.

Lemma classify_navigate : forall t nav,
  classify t = IntentNavigate nav ->
  matching_nav t = Some nav /\ In nav NAV
  /\ JsString.test_words (Nav.p nav) t = true.
Proof.
  intros t nav H. unfold classify in H.
  destruct (JsString.includes t "enroll"); [ discriminate H | ].
  destruct (is_auth_command t); [ discriminate H | ].
  destruct (is_help_command t); [ discriminate H | ].
  destruct (is_reset_command t); [ discriminate H | ].
  destruct (matching_nav t) as [ found | ] eqn:M; [ | discriminate H ].
  injection H as ->. split; [ reflexivity | ].
  unfold matching_nav in M. apply find_some in M. exact M.
Qed.

(** What a navigation command of a verified session leaves behind, with
    or without the live check. *)
Lemma navigation_command_verified_cases : forall enrolledOwners audioBlob nav w,
  exists evs,
    Forall (fun e => is_authenticate e = true) evs
    /\ ((added w (exec (navigation_command env true enrolledOwners audioBlob nav) w)
         = (EvSetTimeout CbIdle 2000 :: EvSpeak (Nav.n nav)
            :: EvNavigate (Nav.r nav) :: evs)%list
         /\ status (session
              (exec (navigation_command env true enrolledOwners audioBlob nav) w))
            = "success")
        \/ (added w (exec (navigation_command env true enrolledOwners audioBlob nav) w)
            = (EvSetTimeout CbIdle 3000
               :: EvSpeak "Access denied. Voice not recognized." :: evs)%list
            /\ status (session
                 (exec (navigation_command env true enrolledOwners audioBlob nav) w))
               = "denied"))
    /\ isVerified (session
         (exec (navigation_command env true enrolledOwners audioBlob nav) w))
       = isVerified (session w).
Proof.
  intros enrolledOwners audioBlob nav w. unfold exec at 1 2 3 4 5.
  destruct (live_check_applies enrolledOwners audioBlob) eqn:L.
  - unfold live_check_applies in L. apply andb_true_iff in L. destruct L as [L1 L2].
    destruct audioBlob as [ blob | ]; [ | discriminate L2 ].
    apply N.ltb_lt in L2.
    assert (NE : enrolledOwners <> []).
    { intros E. subst enrolledOwners. discriminate L1. }
    rewrite (navigation_command_checked env _ _ nav w NE L2). cbv zeta.
    destruct (identifyVoice_effect env (Some blob)
                (exec (updateStatus "verifying" "🔐 VERIFYING VOICE...") w))
      as (evs & X & F).
    unfold exec in X at 1. exists evs. split; [ exact F | ].
    destruct (identifyVoice env (Some blob)
                (exec (updateStatus "verifying" "🔐 VERIFYING VOICE...") w))
      as [[voiceCheck | e] w2]; cbv [snd] in X; subst w2.
    + destruct (Ident.identified voiceCheck).
      * split; [ left; split; [ | reflexivity ] | ].
        -- apply added_app.
           transitivity
             (EvSetTimeout CbIdle 2000 :: EvSpeak (Nav.n nav) :: EvNavigate (Nav.r nav)
              :: trace (extend evs
                          (exec (updateStatus "verifying" "🔐 VERIFYING VOICE...") w)));
             [ reflexivity | rewrite trace_extend; reflexivity ].
        -- transitivity
             (isVerified (session
                (extend evs (exec (updateStatus "verifying" "🔐 VERIFYING VOICE...") w))));
             [ reflexivity | ].
           clear. induction evs as [ | e evs IH ]; [ reflexivity | exact IH ].
      * split; [ right; split; [ | reflexivity ] | ].
        -- apply added_app.
           transitivity
             (EvSetTimeout CbIdle 3000 :: EvSpeak "Access denied. Voice not recognized."
              :: trace (extend evs
                          (exec (updateStatus "verifying" "🔐 VERIFYING VOICE...") w)));
             [ reflexivity | rewrite trace_extend; reflexivity ].
        -- transitivity
             (isVerified (session
                (extend evs (exec (updateStatus "verifying" "🔐 VERIFYING VOICE...") w))));
             [ reflexivity | ].
           clear. induction evs as [ | e evs IH ]; [ reflexivity | exact IH ].
    + split; [ left; split; [ | reflexivity ] | ].
      * apply added_app.
        transitivity
          (EvSetTimeout CbIdle 2000 :: EvSpeak (Nav.n nav) :: EvNavigate (Nav.r nav)
           :: trace (extend evs
                       (exec (updateStatus "verifying" "🔐 VERIFYING VOICE...") w)));
          [ reflexivity | rewrite trace_extend; reflexivity ].
      * transitivity
          (isVerified (session
             (extend evs (exec (updateStatus "verifying" "🔐 VERIFYING VOICE...") w))));
          [ reflexivity | ].
        clear. induction evs as [ | e evs IH ]; [ reflexivity | exact IH ].
  - exists []. split; [ constructor | ].
    rewrite (navigation_command_unchecked env _ _ nav w L).
    split; [ left; split; [ apply added_app; reflexivity | reflexivity ] | reflexivity ].
Qed.

(** X21.  [processCommand] calls the router only for a verified session
    and a transcript classified as a navigation, with the route of the
    first matching entry of [NAV]; the run then ends in the status
    [success].  No other command, and no command of an unverified
    session, navigates. *)
Theorem router_called_only_when_verified : forall text audioBlob w route,
  In (EvNavigate route) (added w (exec (processCommand env text audioBlob) w)) ->
  isVerified (session w) = true
  /\ status (session (exec (processCommand env text audioBlob) w)) = "success"
  /\ exists nav,
       classify (normalise text) = IntentNavigate nav
       /\ In nav NAV
       /\ JsString.test_words (Nav.p nav) (normalise text) = true
       /\ route = Nav.r nav.
Proof.
  intros text audioBlob w route. unfold exec.
  rewrite processCommand_dispatch.
  destruct (classify (normalise text)) as [ | | | | nav | ] eqn:C.
  - destruct (enroll_command_effect (normalise text) w) as (T & _).
    unfold exec in T. rewrite (added_none _ _ T). intros [].
  - intros I. exfalso. exact (performVerification_no_navigation w route I).
  - rewrite (added_app w _ [EvSetTimeout CbIdle 5000;
       EvSpeak "Available commands: home, vibrations, notifications, profile, settings, unlock, enroll, and help."])
      by reflexivity.
    intros I; split_In I.
  - rewrite (added_app w _ [EvSetTimeout CbIdle 2000; EvSpeak "System has been reset."])
      by reflexivity.
    intros I; split_In I.
  - destruct (classify_navigate _ _ C) as (_ & N & T).
    destruct (isVerified (session w)) eqn:V.
    + destruct (navigation_command_verified_cases (enrolledOwners (profiles w))
                  audioBlob nav w) as (evs & F & [ (A & S) | (A & S) ] & _);
        unfold exec in A, S; rewrite A; intros I.
      * split; [ reflexivity | ]. split; [ exact S | ].
        exists nav. split; [ reflexivity | ]. split; [ exact N | ].
        split; [ exact T | ].
        destruct I as [ I | [ I | [ I | I ] ] ]; try discriminate I.
        -- injection I as <-. reflexivity.
        -- rewrite Forall_forall in F. specialize (F _ I). discriminate F.
      * exfalso. destruct I as [ I | [ I | I ] ]; try discriminate I.
        rewrite Forall_forall in F. specialize (F _ I). discriminate F.
    + rewrite navigation_command_locked.
      rewrite (added_app w _ [EvSetTimeout CbIdle 3000;
                              EvSpeak "Please say unlock to authenticate."])
        by reflexivity.
      intros I; split_In I.
  - rewrite (added_app w _ [EvSetTimeout CbIdle 2000]) by reflexivity.
    intros I; split_In I.
Qed.

(** X22.  [processCommand] turns an unverified session into a verified one
    only for a transcript classified as an authenticate command, that is
    only through [performVerification]. *)
Theorem verified_only_through_the_authenticate_command : forall text audioBlob w,
  isVerified (session w) = false ->
  isVerified (session (exec (processCommand env text audioBlob) w)) = true ->
  classify (normalise text) = IntentAuthenticate.
Proof.
  intros text audioBlob w V. unfold exec.
  rewrite processCommand_dispatch.
  destruct (classify (normalise text)) as [ | | | | nav | ] eqn:C;
    try reflexivity; intros V'; exfalso.
  - destruct (enroll_command_effect (normalise text) w) as (_ & S & _).
    unfold exec in S. rewrite S, V in V'. discriminate V'.
  - change (isVerified (session w) = true) in V'. rewrite V in V'. discriminate V'.
  - discriminate V'.
  - rewrite V, navigation_command_locked in V'.
    change (isVerified (session w) = true) in V'. rewrite V in V'. discriminate V'.
  - change (isVerified (session w) = true) in V'. rewrite V in V'. discriminate V'.
Qed.

(** X23.  When the live check of a navigation command identifies the
    speaker, the current user becomes the identified profile and the
    navigation is carried out; the session stays verified. *)
Theorem live_check_success_binds_the_speaker : forall text blob w nav voiceCheck,
  classify (normalise text) = IntentNavigate nav ->
  isVerified (session w) = true ->
  enrolledOwners (profiles w) <> [] ->
  (1000 < size blob)%N ->
  completion (identifyVoice env (Some blob))
    (exec (updateStatus "verifying" "🔐 VERIFYING VOICE...") w) = Normal voiceCheck ->
  Ident.identified voiceCheck = true ->
  completion (processCommand env text (Some blob)) w = Normal tt
  /\ currentUser (session (exec (processCommand env text (Some blob)) w))
     = Ident.user voiceCheck
  /\ isVerified (session (exec (processCommand env text (Some blob)) w)) = true
  /\ status (session (exec (processCommand env text (Some blob)) w)) = "success"
  /\ In (EvNavigate (Nav.r nav))
       (added w (exec (processCommand env text (Some blob)) w)).
Proof.
  intros text blob w nav voiceCheck H V NEO L C D.
  destruct (identifyVoice_effect env (Some blob)
              (exec (updateStatus "verifying" "🔐 VERIFYING VOICE...") w))
    as (evs & X & F).
  unfold exec in X at 1. unfold completion in C.
  change (exec (processCommand env text (Some blob)) w)
    with (snd (processCommand env text (Some blob) w)).
  change (completion (processCommand env text (Some blob)) w)
    with (fst (processCommand env text (Some blob) w)).
  rewrite processCommand_dispatch, H, V.
  rewrite navigation_command_checked by assumption. cbv zeta.
  destruct (identifyVoice env (Some blob)
              (exec (updateStatus "verifying" "🔐 VERIFYING VOICE...") w)) as [c w2].
  cbv [fst] in C. cbv [snd] in X. subst c w2. rewrite D.
  split; [ reflexivity | ]. split; [ reflexivity | ].
  split.
  { transitivity
      (isVerified (session
         (extend evs (exec (updateStatus "verifying" "🔐 VERIFYING VOICE...") w)))).
    - reflexivity.
    - rewrite <- V. clear. induction evs as [ | e evs IH ]; [ reflexivity | exact IH ]. }
  split; [ reflexivity | ].
  erewrite added_app;
    [ | transitivity
          (EvSetTimeout CbIdle 2000 :: EvSpeak (Nav.n nav) :: EvNavigate (Nav.r nav)
           :: trace (extend evs (exec (updateStatus "verifying" "🔐 VERIFYING VOICE...") w)));
        [ reflexivity | rewrite trace_extend; rewrite !app_comm_cons; reflexivity ] ].
  right. right. left. reflexivity.
Qed.

(** X25.  When the live check of a navigation command gets an answer
    with [identified = false], the command is denied: the status is
    [denied], the message gives [Math.round(score * 100)] as a
    percentage, the product and the rounding being those of doubles, and
    the router is not called.  The session stays verified and the current
    user is kept. *)
Theorem live_check_denial_reports_the_rounded_score :
  forall text blob w nav voiceCheck,
    classify (normalise text) = IntentNavigate nav ->
    isVerified (session w) = true ->
    enrolledOwners (profiles w) <> [] ->
    (1000 < size blob)%N ->
    completion (identifyVoice env (Some blob))
      (exec (updateStatus "verifying" "🔐 VERIFYING VOICE...") w) = Normal voiceCheck ->
    Ident.identified voiceCheck = false ->
    completion (processCommand env text (Some blob)) w = Normal tt
    /\ status (session (exec (processCommand env text (Some blob)) w)) = "denied"
    /\ statusMessage (session (exec (processCommand env text (Some blob)) w))
       = "🚫 ACCESS DENIED" ++ JsString.newline ++ "Confidence: "
         ++ Number.to_string
              (Math_round
                 (Number.mul (Number.of_Q (Ident.score voiceCheck)) (Number.of_Q 100)))
         ++ "%"
    /\ isVerified (session (exec (processCommand env text (Some blob)) w)) = true
    /\ currentUser (session (exec (processCommand env text (Some blob)) w))
       = currentUser (session w)
    /\ (forall route,
          ~ In (EvNavigate route)
              (added w (exec (processCommand env text (Some blob)) w))).
Proof.
  intros text blob w nav voiceCheck H V NEO L C D.
  destruct (identifyVoice_effect env (Some blob)
              (exec (updateStatus "verifying" "🔐 VERIFYING VOICE...") w))
    as (evs & X & F).
  unfold exec in X at 1. unfold completion in C.
  change (exec (processCommand env text (Some blob)) w)
    with (snd (processCommand env text (Some blob) w)).
  change (completion (processCommand env text (Some blob)) w)
    with (fst (processCommand env text (Some blob) w)).
  rewrite processCommand_dispatch, H, V.
  rewrite navigation_command_checked by assumption. cbv zeta.
  destruct (identifyVoice env (Some blob)
              (exec (updateStatus "verifying" "🔐 VERIFYING VOICE...") w)) as [c w2].
  cbv [fst] in C. cbv [snd] in X. subst c w2. rewrite D.
  split; [ reflexivity | ]. split; [ reflexivity | ]. split; [ reflexivity | ].
  split.
  { transitivity
      (isVerified (session
         (extend evs (exec (updateStatus "verifying" "🔐 VERIFYING VOICE...") w)))).
    - reflexivity.
    - rewrite <- V. clear. induction evs as [ | e evs IH ]; [ reflexivity | exact IH ]. }
  split.
  { transitivity
      (currentUser (session
         (extend evs (exec (updateStatus "verifying" "🔐 VERIFYING VOICE...") w)))).
    - reflexivity.
    - clear. induction evs as [ | e evs IH ]; [ reflexivity | exact IH ]. }
  intros route.
  erewrite added_app;
    [ | transitivity
          (EvSetTimeout CbIdle 3000
           :: EvSpeak "Access denied. Voice not recognized."
           :: trace (extend evs (exec (updateStatus "verifying" "🔐 VERIFYING VOICE...") w)));
        [ reflexivity | rewrite trace_extend; rewrite !app_comm_cons; reflexivity ] ].
  intros [ I | [ I | I ] ]; try discriminate I.
  rewrite Forall_forall in F. specialize (F _ I). discriminate F.
Qed.

(** X26.  The [catch] around the live check: when [identifyVoice] throws,
    which takes a stored enrolled list that [JSON.parse] rejects, the
    error is dropped and the navigation is carried out. *)
Theorem live_check_passes_when_identification_throws :
  forall text blob w nav e,
    classify (normalise text) = IntentNavigate nav ->
    isVerified (session w) = true ->
    enrolledOwners (profiles w) <> [] ->
    (1000 < size blob)%N ->
    completion getEnrolledOwners w = Thrown e ->
    completion (processCommand env text (Some blob)) w = Normal tt
    /\ added w (exec (processCommand env text (Some blob)) w)
       = [EvSetTimeout CbIdle 2000; EvSpeak (Nav.n nav); EvNavigate (Nav.r nav)]
    /\ status (session (exec (processCommand env text (Some blob)) w)) = "success"
    /\ statusMessage (session (exec (processCommand env text (Some blob)) w))
       = "→ " ++ JsString.toUpperCase (Nav.n nav).
Proof.
  intros text blob w nav e H V NEO L E.
  assert (T : identifyVoice env (Some blob)
                (exec (updateStatus "verifying" "🔐 VERIFYING VOICE...") w)
              = (Thrown e, exec (updateStatus "verifying" "🔐 VERIFYING VOICE...") w)).
  { unfold completion in E. rewrite getEnrolledOwners_spec in E. cbv [fst] in E.
    unfold identifyVoice, bind. rewrite getEnrolledOwners_spec.
    change (storage (exec (updateStatus "verifying" "🔐 VERIFYING VOICE...") w))
      with (storage w).
    rewrite E. reflexivity. }
  change (exec (processCommand env text (Some blob)) w)
    with (snd (processCommand env text (Some blob) w)).
  change (completion (processCommand env text (Some blob)) w)
    with (fst (processCommand env text (Some blob) w)).
  rewrite processCommand_dispatch, H, V.
  rewrite navigation_command_checked by assumption. cbv zeta.
  rewrite T.
  split; [ reflexivity | ]. split; [ | split; reflexivity ].
  apply added_app. reflexivity.
Qed.

End Dispatcher.

(** X24.  The remove button of the profile dialog, on readable lists and
    for a profile other than the default one: the profile leaves the
    stored profile list and the stored enrolled list, every other name
    stays, and the lists of the React state are the lists read from
    storage afterwards.  The [isEnrolled] flag is not recomputed. *)
Theorem remove_profile_click_keeps_state_and_storage_in_step :
  forall name w profiles0 enrolled,
    completion getOwners w = Normal profiles0 ->
    completion getEnrolledOwners w = Normal enrolled ->
    name <> "owner" ->
    completion (remove_profile_click name) w = Normal tt
    /\ completion getOwners (exec (remove_profile_click name) w)
       = Normal (filter (fun o => negb (String.eqb o name)) profiles0)
    /\ completion getEnrolledOwners (exec (remove_profile_click name) w)
       = Normal (filter (fun o => negb (String.eqb o name)) enrolled)
    /\ owners (profiles (exec (remove_profile_click name) w))
       = filter (fun o => negb (String.eqb o name)) profiles0
    /\ enrolledOwners (profiles (exec (remove_profile_click name) w))
       = filter (fun o => negb (String.eqb o name)) enrolled
    /\ ~ In name (owners (profiles (exec (remove_profile_click name) w)))
    /\ ~ In name (enrolledOwners (profiles (exec (remove_profile_click name) w)))
    /\ isEnrolled (profiles (exec (remove_profile_click name) w))
       = isEnrolled (profiles w).
Proof.
  intros name w profiles0 enrolled HO HE NE.
  unfold completion in HO, HE. rewrite getOwners_spec in HO.
  rewrite getEnrolledOwners_spec in HE. cbv [fst] in HO, HE.
  assert (R : remove_profile_click name w
              = (Normal tt,
                 exec (setEnrolledOwnersState
                         (filter (fun o => negb (String.eqb o name)) enrolled))
                   (exec (setOwnersState
                            (filter (fun o => negb (String.eqb o name)) profiles0))
                      (exec (setEnrolledOwners
                               (filter (fun o => negb (String.eqb o name)) enrolled))
                         (exec (setOwners
                                  (filter (fun o => negb (String.eqb o name)) profiles0))
                            w))))).
  { world w. cbv [storage synap_owners synap_enrolled_owners] in HO, HE.
    unfold remove_profile_click, removeOwner.
    destruct (String.eqb_spec name "owner") as [ E | _ ]; [ contradiction | ].
    destruct ow as [ [ lo | eo' ] | ]; try discriminate HO;
      destruct eo as [ [ le | ee ] | ]; try discriminate HE;
      injection HO as <-; injection HE as <-; reflexivity. }
  change (exec (remove_profile_click name) w)
    with (snd (remove_profile_click name w)).
  change (completion (remove_profile_click name) w)
    with (fst (remove_profile_click name w)).
  rewrite R. cbv [fst snd].
  split; [ reflexivity | ]. split; [ reflexivity | ]. split; [ reflexivity | ].
  split; [ reflexivity | ]. split; [ reflexivity | ].
  split; [ | split; [ | reflexivity ] ].
  - intros I. apply In_filter_other in I. destruct I as [_ I]. apply I. reflexivity.
  - intros I. apply In_filter_other in I. destruct I as [_ I]. apply I. reflexivity.
Qed.

(* ------------------------------------------------------------------ *)
(** *** Instances of the further properties *)

Lemma addOwner_appends_once_witness :
  completion getOwners (exec (addOwner "guest") fresh) = Normal ["owner"; "guest"].
Proof.
  assert (H : completion getOwners fresh = Normal ["owner"]) by reflexivity.
  assert (N : ~ In "guest" ["owner"]) by (intros [ E | [] ]; discriminate E).
  exact (proj1 (proj2 (proj2 (addOwner_appends_once "guest" fresh ["owner"] H))) N).
Defined.

Lemma markOwnerEnrolled_appends_once_witness :
  completion getEnrolledOwners (exec (markOwnerEnrolled "owner") fresh)
  = Normal ["owner"].
Proof.
  assert (H : completion getEnrolledOwners fresh = Normal []) by reflexivity.
  assert (N : ~ In "owner" (@nil string)) by (intros []).
  exact (proj1 (proj2 (proj2 (markOwnerEnrolled_appends_once "owner" fresh [] H))) N).
Defined.

Lemma removeOwner_removes_only_that_name_witness :
  completion getEnrolledOwners
    (exec (removeOwner "guest") (enrolled_world ["owner"; "guest"] true))
  = Normal ["owner"].
Proof.
  assert (HO : completion getOwners (enrolled_world ["owner"; "guest"] true)
               = Normal ["owner"]) by reflexivity.
  assert (HE : completion getEnrolledOwners (enrolled_world ["owner"; "guest"] true)
               = Normal ["owner"; "guest"]) by reflexivity.
  assert (NE : "guest" <> "owner") by discriminate.
  exact (proj1 (proj2 (proj2
           (proj1 (proj2 (removeOwner_removes_only_that_name "guest"
                            (enrolled_world ["owner"; "guest"] true)
                            ["owner"] ["owner"; "guest"] HO HE)) NE)))).
Defined.

Lemma addOwner_then_removeOwner_witness :
  completion getOwners (exec (addOwner "guest" ;; removeOwner "guest") fresh)
  = Normal ["owner"].
Proof.
  assert (HO : completion getOwners fresh = Normal ["owner"]) by reflexivity.
  assert (HE : completion getEnrolledOwners fresh = Normal []) by reflexivity.
  assert (N : ~ In "guest" ["owner"]) by (intros [ E | [] ]; discriminate E).
  assert (NE : "guest" <> "owner") by discriminate.
  exact (proj2 (addOwner_then_removeOwner "guest" fresh ["owner"] [] HO HE N NE)).
Defined.

Lemma handlePinSubmit_rejection_changes_only_the_error_witness :
  exists text,
    text <> ""
    /\ handlePinSubmit short_pin_world
       = (Normal tt, exec (setPinError text) short_pin_world).
Proof.
  apply (handlePinSubmit_rejection_changes_only_the_error short_pin_world).
  left. vm_compute. reflexivity.
Defined.

Lemma first_enrollment_sets_the_pin_witness :
  synap_owner_password
    (storage (exec (startEnrollment "owner" ;; pin_change "12a34" ;;
                    pin_confirm_change "12a34" ;; handlePinSubmit) fresh))
  = Some "1234".
Proof.
  assert (R : voiceAuthStatus (profiles fresh) = "ready") by reflexivity.
  assert (P : synap_owner_password (storage fresh) = None) by reflexivity.
  assert (D : four_digits (digits_only "12a34") = true) by (vm_compute; reflexivity).
  exact (proj1 (proj2 (first_enrollment_sets_the_pin "owner" "12a34" fresh R P D))).
Defined.

Lemma identifyVoice_calls_each_enrolled_profile_once_witness :
  exists answers,
    List.length answers = 2%nat
    /\ exec (identifyVoice outage (Some (sample 1500)))
         (enrolled_world ["owner"; "guest"] true)
       = extend (scan_calls (sample 1500) ["owner"; "guest"] answers)
           (enrolled_world ["owner"; "guest"] true)
    /\ added (enrolled_world ["owner"; "guest"] true)
         (exec (identifyVoice outage (Some (sample 1500)))
            (enrolled_world ["owner"; "guest"] true))
       = scan_calls (sample 1500) ["owner"; "guest"] answers.
Proof.
  assert (E : completion getEnrolledOwners (enrolled_world ["owner"; "guest"] true)
              = Normal ["owner"; "guest"]) by reflexivity.
  assert (NE : ["owner"; "guest"] <> []) by discriminate.
  assert (S : (1000 <= size (sample 1500))%N) by (vm_compute; discriminate).
  exact (identifyVoice_calls_each_enrolled_profile_once outage (sample 1500)
           ["owner"; "guest"] (enrolled_world ["owner"; "guest"] true) E NE S).
Defined.

Lemma identified_means_backend_authenticated_witness :
  exists blob owner answer,
    Some (sample 1500) = Some blob
    /\ (1000 <= size blob)%N
    /\ In owner ["owner"]
    /\ Ident.user (Ident.mk true (Some "owner") (9 # 10) (Some "ACCEPT") None)
       = Some owner
    /\ Ident.score (Ident.mk true (Some "owner") (9 # 10) (Some "ACCEPT") None)
       = Auth.confidence answer
    /\ Auth.authenticated answer = true
    /\ In (EvAuthenticate (getUserId owner) blob (Normal answer))
         (added (enrolled_world ["owner"] true)
            (exec (identifyVoice (agreeable (Verify.mk true true true))
                     (Some (sample 1500)))
               (enrolled_world ["owner"] true))).
Proof.
  assert (E : completion getEnrolledOwners (enrolled_world ["owner"] true)
              = Normal ["owner"]) by reflexivity.
  assert (NE : ["owner"] <> []) by discriminate.
  assert (C : completion (identifyVoice (agreeable (Verify.mk true true true))
                            (Some (sample 1500)))
                (enrolled_world ["owner"] true)
              = Normal (Ident.mk true (Some "owner") (9 # 10) (Some "ACCEPT") None))
    by (vm_compute; reflexivity).
  exact (identified_means_backend_authenticated (agreeable (Verify.mk true true true))
           (Some (sample 1500)) ["owner"] (enrolled_world ["owner"] true) _
           E NE C eq_refl).
Defined.

Lemma reported_score_bounds_the_answers_witness :
  (0 <= Ident.score (Ident.mk true (Some "owner") (9 # 10) (Some "ACCEPT") None))%Q.
Proof.
  assert (E : completion getEnrolledOwners (enrolled_world ["owner"] true)
              = Normal ["owner"]) by reflexivity.
  assert (NE : ["owner"] <> []) by discriminate.
  assert (S : (1000 <= size (sample 1500))%N) by (vm_compute; discriminate).
  assert (C : completion (identifyVoice (agreeable (Verify.mk true true true))
                            (Some (sample 1500)))
                (enrolled_world ["owner"] true)
              = Normal (Ident.mk true (Some "owner") (9 # 10) (Some "ACCEPT") None))
    by (vm_compute; reflexivity).
  exact (proj1 (reported_score_bounds_the_answers
                  (agreeable (Verify.mk true true true)) (sample 1500) ["owner"]
                  (enrolled_world ["owner"] true) _ E NE S C)).
Defined.

Lemma verify_call_uses_this_challenge_witness :
  exists challenge,
    In (EvStartChallenge "voice_owner" (Normal challenge))
       (added (enrolled_world ["owner"] false)
          (exec (performVerification (agreeable (Verify.mk true true true)))
             (enrolled_world ["owner"] false)))
    /\ Challenge.success challenge = true
    /\ "session-1" = Challenge.sessionId challenge.
Proof.
  assert (I : In (EvVerifyChallenge "session-1" (sample 1500) "home sweet home"
                    (Normal (Verify.mk true true true)))
                (added (enrolled_world ["owner"] false)
                   (exec (performVerification (agreeable (Verify.mk true true true)))
                      (enrolled_world ["owner"] false))))
    by (vm_compute; right; right; left; reflexivity).
  destruct (verify_call_uses_this_challenge (agreeable (Verify.mk true true true))
              (enrolled_world ["owner"] false) _ _ _ _ I)
    as (challenge & H1 & H2 & H3 & _).
  exists challenge. split; [ exact H1 | split; [ exact H2 | exact H3 ] ].
Defined.

Lemma no_audio_stops_before_the_verify_call_witness :
  statusMessage (session (exec (performVerification faint)
                            (enrolled_world ["owner"] false)))
  = "NO AUDIO DETECTED".
Proof.
  assert (I : In (EvRecordAudio 5000 (Normal (Some (sample 10))))
                (added (enrolled_world ["owner"] false)
                   (exec (performVerification faint) (enrolled_world ["owner"] false))))
    by (vm_compute; right; right; right; left; reflexivity).
  assert (S : (size (sample 10) <? 1000)%N = true) by (vm_compute; reflexivity).
  exact (proj1 (proj2 (no_audio_stops_before_the_verify_call faint
                         (enrolled_world ["owner"] false) (Some (sample 10)) I S))).
Defined.

Lemma failed_challenge_records_nothing_witness :
  statusMessage (session (exec (performVerification outage)
                            (enrolled_world ["owner"] false)))
  = "Failed to fetch".
Proof.
  assert (I : In (EvStartChallenge "voice_owner" (Thrown (mkError "Failed to fetch")))
                (added (enrolled_world ["owner"] false)
                   (exec (performVerification outage) (enrolled_world ["owner"] false))))
    by (vm_compute; right; left; reflexivity).
  exact (proj1 (proj2 (failed_challenge_records_nothing outage
                         (enrolled_world ["owner"] false) _ _ I Logic.I))).
Defined.

Lemma verification_timer_tests_the_old_status_witness :
  status (session
    (exec (fire (agreeable (Verify.mk true true true)) (CbIdleUnlessVerified "idle"))
       (exec (performVerification (agreeable (Verify.mk true true true)))
          (enrolled_world ["owner"] false)))) = "idle".
Proof.
  assert (I : In (EvSetTimeout (CbIdleUnlessVerified "idle") 3000)
                (added (enrolled_world ["owner"] false)
                   (exec (performVerification (agreeable (Verify.mk true true true)))
                      (enrolled_world ["owner"] false))))
    by (vm_compute; left; reflexivity).
  assert (N : status (session (enrolled_world ["owner"] false)) <> "verified")
    by (vm_compute; discriminate).
  exact (proj1 (proj1 (proj2 (proj2
           (verification_timer_tests_the_old_status
              (agreeable (Verify.mk true true true))
              (enrolled_world ["owner"] false) _ _ I))) N)).
Defined.

Lemma runEnrollment_always_releases_the_guard_witness :
  enrollmentInProgressRef
    (exec (runEnrollment (agreeable (Verify.mk true true true)) "guest") fresh)
  = false.
Proof.
  assert (G : enrollmentInProgressRef fresh = false) by reflexivity.
  exact (proj1 (proj2 (runEnrollment_always_releases_the_guard
                         (agreeable (Verify.mk true true true)) "guest" fresh G))).
Defined.

Lemma enrollment_changes_the_registry_only_on_success_witness :
  storage (exec (runEnrollment outage "guest") fresh) = storage fresh.
Proof.
  assert (G : enrollmentInProgressRef fresh = false) by reflexivity.
  assert (S : status (session (exec (runEnrollment outage "guest") fresh)) <> "success")
    by (vm_compute; discriminate).
  exact (proj1 (proj1 (enrollment_changes_the_registry_only_on_success
                         outage "guest" fresh G) S)).
Defined.

Lemma enrollment_timer_only_after_the_backend_call_witness :
  In (EvSetTimeout CbIdle 3000)
    (added fresh
       (exec (runEnrollment (agreeable (Verify.mk true true true)) "guest") fresh)).
Proof.
  assert (G : enrollmentInProgressRef fresh = false) by reflexivity.
  apply (proj2 (enrollment_timer_only_after_the_backend_call
                  (agreeable (Verify.mk true true true)) "guest" fresh
                  CbIdle 3000 G)).
  split; [ reflexivity | ]. split; [ reflexivity | ].
  exists [Some (sample 1500); Some (sample 1500); Some (sample 1500)].
  exists (Normal (Enroll.mk true "enrolled")).
  vm_compute. right. right. left. reflexivity.
Defined.

Lemma router_called_only_when_verified_witness :
  isVerified (session (enrolled_world ["owner"] true)) = true.
Proof.
  assert (I : In (EvNavigate "/")
                (added (enrolled_world ["owner"] true)
                   (exec (processCommand (agreeable (Verify.mk true true true))
                            "go home" None)
                      (enrolled_world ["owner"] true))))
    by (vm_compute; right; right; left; reflexivity).
  exact (proj1 (router_called_only_when_verified
                  (agreeable (Verify.mk true true true)) "go home" None
                  (enrolled_world ["owner"] true) "/" I)).
Defined.

Lemma verified_only_through_the_authenticate_command_witness :
  classify (normalise "Unlock") = IntentAuthenticate.
Proof.
  assert (V : isVerified (session (enrolled_world ["owner"] false)) = false)
    by reflexivity.
  assert (V' : isVerified
                 (session (exec (processCommand (agreeable (Verify.mk true true true))
                                   "Unlock" None)
                             (enrolled_world ["owner"] false))) = true)
    by (vm_compute; reflexivity).
  exact (verified_only_through_the_authenticate_command
           (agreeable (Verify.mk true true true)) "Unlock" None
           (enrolled_world ["owner"] false) V V').
Defined.

Lemma live_check_success_binds_the_speaker_witness :
  currentUser
    (session (exec (processCommand (agreeable (Verify.mk true true true)) "go home"
                      (Some (sample 1500)))
                (enrolled_world ["guest"] true)))
  = Some "guest".
Proof.
  assert (H : classify (normalise "go home")
              = IntentNavigate
                  (Nav.mk ["home"; "dashboard"; "main"; "start"] "/" "Dashboard"))
    by (vm_compute; reflexivity).
  assert (V : isVerified (session (enrolled_world ["guest"] true)) = true)
    by reflexivity.
  assert (NE : enrolledOwners (profiles (enrolled_world ["guest"] true)) <> [])
    by (vm_compute; discriminate).
  assert (L : (1000 < size (sample 1500))%N) by (vm_compute; reflexivity).
  assert (C : completion (identifyVoice (agreeable (Verify.mk true true true))
                            (Some (sample 1500)))
                (exec (updateStatus "verifying" "🔐 VERIFYING VOICE...")
                   (enrolled_world ["guest"] true))
              = Normal (Ident.mk true (Some "guest") (9 # 10) (Some "ACCEPT") None))
    by (vm_compute; reflexivity).
  exact (proj1 (proj2 (live_check_success_binds_the_speaker
                         (agreeable (Verify.mk true true true)) "go home"
                         (sample 1500) (enrolled_world ["guest"] true) _ _
                         H V NE L C eq_refl))).
Defined.

Lemma remove_profile_click_keeps_state_and_storage_in_step_witness :
  enrolledOwners
    (profiles (exec (remove_profile_click "guest")
                 (enrolled_world ["owner"; "guest"] true)))
  = ["owner"].
Proof.
  assert (HO : completion getOwners (enrolled_world ["owner"; "guest"] true)
               = Normal ["owner"]) by reflexivity.
  assert (HE : completion getEnrolledOwners (enrolled_world ["owner"; "guest"] true)
               = Normal ["owner"; "guest"]) by reflexivity.
  assert (NE : "guest" <> "owner") by discriminate.
  exact (proj1 (proj2 (proj2 (proj2 (proj2
           (remove_profile_click_keeps_state_and_storage_in_step "guest"
              (enrolled_world ["owner"; "guest"] true)
              ["owner"] ["owner"; "guest"] HO HE NE)))))).
Defined.

Lemma identifyVoice_contains_backend_failures_witness :
  exists voiceCheck,
    completion (identifyVoice outage (Some (sample 1500)))
      (enrolled_world ["owner"; "guest"] true)
    = Normal voiceCheck.
Proof.
  assert (E : completion getEnrolledOwners (enrolled_world ["owner"; "guest"] true)
              = Normal ["owner"; "guest"]) by reflexivity.
  exact (proj1 (identifyVoice_contains_backend_failures outage (Some (sample 1500))
                  (enrolled_world ["owner"; "guest"] true)) _ E).
Defined.

Lemma live_check_denial_reports_the_rounded_score_witness :
  statusMessage
    (session (exec (processCommand doubtful "go home" (Some (sample 1500)))
                (enrolled_world ["owner"] true)))
  = "🚫 ACCESS DENIED" ++ JsString.newline ++ "Confidence: 28%".
Proof.
  assert (H : classify (normalise "go home")
              = IntentNavigate
                  (Nav.mk ["home"; "dashboard"; "main"; "start"] "/" "Dashboard"))
    by (vm_compute; reflexivity).
  assert (V : isVerified (session (enrolled_world ["owner"] true)) = true)
    by reflexivity.
  assert (NE : enrolledOwners (profiles (enrolled_world ["owner"] true)) <> [])
    by (vm_compute; discriminate).
  assert (L : (1000 < size (sample 1500))%N) by (vm_compute; reflexivity).
  assert (C : completion (identifyVoice doubtful (Some (sample 1500)))
                (exec (updateStatus "verifying" "🔐 VERIFYING VOICE...")
                   (enrolled_world ["owner"] true))
              = Normal (Ident.mk false (Some "owner") (285 # 1000) (Some "REJECT") None))
    by (vm_compute; reflexivity).
  exact (proj1 (proj2 (proj2 (live_check_denial_reports_the_rounded_score
                                doubtful "go home" (sample 1500)
                                (enrolled_world ["owner"] true) _ _
                                H V NE L C eq_refl)))).
Defined.

Lemma live_check_passes_when_identification_throws_witness :
  added unreadable_world
    (exec (processCommand outage "go home" (Some (sample 1500))) unreadable_world)
  = [EvSetTimeout CbIdle 2000; EvSpeak "Dashboard"; EvNavigate "/"].
Proof.
  assert (H : classify (normalise "go home")
              = IntentNavigate
                  (Nav.mk ["home"; "dashboard"; "main"; "start"] "/" "Dashboard"))
    by (vm_compute; reflexivity).
  assert (V : isVerified (session unreadable_world) = true) by reflexivity.
  assert (NE : enrolledOwners (profiles unreadable_world) <> [])
    by (vm_compute; discriminate).
  assert (L : (1000 < size (sample 1500))%N) by (vm_compute; reflexivity).
  assert (E : completion getEnrolledOwners unreadable_world
              = Thrown (mkError "Unexpected token")) by reflexivity.
  exact (proj1 (proj2 (live_check_passes_when_identification_throws
                         outage "go home" (sample 1500) unreadable_world _ _
                         H V NE L E))).
Defined.
